(** * Chat proxy and chat client: a shallow embedding

    The repository holds three JavaScript files:
    - the multi-turn proxy handler ("api/chat.js - Fixed Vercel API handler",
      functions [handler] and [fetchClaudeResponse]), module [Proxy];
    - the single-message forwarder (src/api/chat.js, function [handler]),
      module [Forwarder];
    - the browser client (functions [sendMessage] and [checkApiStatus]),
      module [Client].

    JavaScript values are embedded in module [JS].  A JavaScript number is
    idealised as a rational or NaN (the infinities are left out), a string
    as a sequence of 8-bit code units. *)

From Stdlib Require Import ZArith QArith Qminmax String Ascii List Bool Lia.
From Stdlib Require Import DecimalString.
Import ListNotations.
Local Open Scope string_scope.
Set Warnings "-register-all".

(* ===================================================================== *)
(** ** JavaScript values                                                  *)
(* ===================================================================== *)

Module JS.

(** Numbers: NaN or a finite value. *)
Inductive number : Type :=
| NaN
| Num (q : Q).

(** Two numbers denote the same value. *)
Definition num_eq (a b : number) : Prop :=
  match a, b with
  | NaN, NaN => True
  | Num p, Num q => (p == q)%Q
  | _, _ => False
  end.

Infix "=n=" := num_eq (at level 70, no associativity).

(** [Math.min] and [Math.max] on two numbers: NaN is contagious. *)
Definition Math_min (a b : number) : number :=
  match a, b with
  | Num p, Num q => Num (Qmin p q)
  | _, _ => NaN
  end.

Definition Math_max (a b : number) : number :=
  match a, b with
  | Num p, Num q => Num (Qmax p q)
  | _, _ => NaN
  end.

(** [a / b] on numbers, for a finite non-zero divisor. *)
Definition div (a : number) (b : Q) : number :=
  match a with
  | Num p => Num (p / b)
  | NaN => NaN
  end.

Definition of_Z (z : Z) : number := Num (inject_Z z).
Definition of_nat (n : nat) : number := of_Z (Z.of_nat n).

(** Values as [JSON.parse] and property reads produce them. An object is
    its list of own properties; a read takes the first binding of a key. *)
Inductive value : Type :=
| Undefined
| Null
| Bool (b : bool)
| Number (n : number)
| Str (s : string)
| Arr (items : list value)
| Obj (fields : list (string * value)).

(** Thrown values: [Error] objects and the built-in subclasses, with their
    [message]. *)
Inductive exn : Type :=
| Error (message : string)
| TypeError (message : string)
| SyntaxError (message : string).

Definition message (e : exn) : string :=
  match e with
  | Error m | TypeError m | SyntaxError m => m
  end.

(** The result of evaluating an expression that may throw. *)
Inductive outcome (A : Type) : Type :=
| Return (a : A)
| Throw (e : exn).
Arguments Return {A} a.
Arguments Throw {A} e.

(** ToBoolean. *)
Definition truthy (v : value) : bool :=
  match v with
  | Undefined | Null => false
  | Bool b => b
  | Number NaN => false
  | Number (Num q) => negb (Qeq_bool q 0)
  | Str s => negb (s =? "")
  | Arr _ | Obj _ => true
  end.

(** [Array.isArray]. *)
Definition isArray (v : value) : bool :=
  match v with
  | Arr _ => true
  | _ => false
  end.

(** [v === "literal"]. *)
Definition is_string (v : value) (lit : string) : bool :=
  match v with
  | Str s => s =? lit
  | _ => false
  end.

(** [typeof v === 'string']. *)
Definition typeof_string (v : value) : bool :=
  match v with
  | Str _ => true
  | _ => false
  end.

Fixpoint assoc (k : string) (fs : list (string * value)) : value :=
  match fs with
  | [] => Undefined
  | (k', v) :: rest => if k =? k' then v else assoc k rest
  end.

(** The message of the TypeError of a property read on null or undefined
    (the text is the engine's; no branch of the program depends on it
    beyond its not holding a status code). *)
Definition cannot_read (of_what key : string) : exn :=
  TypeError ("Cannot read properties of " ++ of_what ++ " (reading '" ++ key ++ "')").

(** [v.key] for the property names the program reads (none is an array
    index): own properties of an object, [length] of an array or string. *)
Definition get (v : value) (key : string) : outcome value :=
  match v with
  | Undefined => Throw (cannot_read "undefined" key)
  | Null => Throw (cannot_read "null" key)
  | Obj fs => Return (assoc key fs)
  | Arr l => Return (if key =? "length" then Number (of_nat (List.length l)) else Undefined)
  | Str s => Return (if key =? "length" then Number (of_nat (String.length s)) else Undefined)
  | Bool _ | Number _ => Return Undefined
  end.

(** [v[0]]. *)
Definition first (v : value) : outcome value :=
  match v with
  | Undefined => Throw (cannot_read "undefined" "0")
  | Null => Throw (cannot_read "null" "0")
  | Arr l => Return (nth 0 l Undefined)
  | Obj fs => Return (assoc "0" fs)
  | Str (String c _) => Return (Str (String c ""))
  | Str EmptyString | Bool _ | Number _ => Return Undefined
  end.

(** [v?.key]: undefined on null and undefined, a read otherwise. *)
Definition get_opt (v : value) (key : string) : outcome value :=
  match v with
  | Undefined | Null => Return Undefined
  | _ => get v key
  end.

(** Whitespace of [String.prototype.trim] among the 8-bit code units. *)
Definition is_space (c : ascii) : bool :=
  let n := nat_of_ascii c in
  ((9 <=? n) && (n <=? 13))%nat || (n =? 32)%nat || (n =? 160)%nat.

Fixpoint trimStart (s : string) : string :=
  match s with
  | EmptyString => EmptyString
  | String c r => if is_space c then trimStart r else s
  end.

Fixpoint trimEnd (s : string) : string :=
  match s with
  | EmptyString => EmptyString
  | String c r =>
      match trimEnd r with
      | EmptyString => if is_space c then EmptyString else String c EmptyString
      | r' => String c r'
      end
  end.

Definition trim (s : string) : string := trimEnd (trimStart s).

(** [hay.includes(needle)]. *)
Fixpoint includes (hay needle : string) : bool :=
  prefix needle hay ||
  match hay with
  | EmptyString => false
  | String _ r => includes r needle
  end.

(** [s.substring(0, n)]. *)
Definition substring0 (n : nat) (s : string) : string := substring 0 n s.

(** An integer in a template literal. *)
Definition Z_toString (z : Z) : string := NilZero.string_of_int (Z.to_int z).

(** An object has an own property of this name. *)
Fixpoint has_own (key : string) (fs : list (string * value)) : bool :=
  match fs with
  | [] => false
  | (k, _) :: rest => (key =? k) || has_own key rest
  end.

(** The conversion of a value to a primitive goes through. It throws a
    TypeError on an object with an own [toString] (an own property of a
    parsed value is never a function, and the inherited [valueOf] gives
    the object back), and on an array that holds such a value where [join]
    converts it. *)
Fixpoint printable (v : value) : bool :=
  match v with
  | Obj fs => negb (has_own "toString" fs)
  | Arr l =>
      (fix all (l : list value) : bool :=
         match l with
         | [] => true
         | x :: r => printable x && all r
         end) l
  | _ => true
  end.

Definition cannot_convert : exn :=
  TypeError "Cannot convert object to primitive value".

(** ToPrimitive, for its exception only. *)
Definition to_primitive (v : value) : outcome unit :=
  if printable v then Return tt else Throw cannot_convert.

(** What the engine supplies: number formatting, numeric parsing of
    strings, and the JSON parser (the message of the SyntaxError on
    failure). *)
Record Host : Type := {
  Number_toString : number -> string;
  String_toNumber : string -> number;
  JSON_parse : string -> string + value
}.

(** A host for concrete runs: integers print in decimal, no string reads
    as a number, and the JSON parser knows the texts of a table. *)
Fixpoint lookup_text (table : list (string * value)) (text : string)
  : string + value :=
  match table with
  | [] => inl "Unexpected token in JSON"
  | (t, v) :: rest => if t =? text then inr v else lookup_text rest text
  end.

Definition table_host (table : list (string * value)) : Host :=
  {| Number_toString := fun n =>
       match n with
       | NaN => "NaN"
       | Num q => Z_toString (Qnum q / Zpos (Qden q))
       end;
     String_toNumber := fun _ => NaN;
     JSON_parse := lookup_text table |}.

Section WithHost.
Variable host : Host.

(** ToString, as [content.toString()], [new Error(v)] and string
    concatenation apply it, of a value that is [printable]. *)
Fixpoint toString (v : value) : string :=
  match v with
  | Undefined => "undefined"
  | Null => "null"
  | Bool true => "true"
  | Bool false => "false"
  | Number n => Number_toString host n
  | Str s => s
  | Arr l =>
      (fix join (l : list value) : string :=
         match l with
         | [] => ""
         | x :: r =>
             let sx := match x with
                       | Undefined | Null => ""
                       | _ => toString x
                       end in
             match r with
             | [] => sx
             | _ :: _ => sx ++ "," ++ join r
             end
         end) l
  | Obj _ => "[object Object]"
  end.

(** ToNumber, as [Math.max] and [/] apply it to their operands, of a
    value that is [printable]. *)
Definition ToNumber (v : value) : number :=
  match v with
  | Undefined => NaN
  | Null => Num 0
  | Bool true => Num 1
  | Bool false => Num 0
  | Number n => n
  | Str s => String_toNumber host s
  | Arr _ => String_toNumber host (toString v)
  | Obj _ => NaN
  end.

End WithHost.

(** Code with effects: a state [S] threaded through, and exceptions. The
    state survives a throw, as in JavaScript. *)
Definition Eff (S A : Type) : Type := S -> outcome A * S.

Definition ret {S A} (a : A) : Eff S A := fun s => (Return a, s).

Definition throw {S A} (e : exn) : Eff S A := fun s => (Throw e, s).

Definition bind {S A B} (c : Eff S A) (k : A -> Eff S B) : Eff S B :=
  fun s =>
    match c s with
    | (Return a, s') => k a s'
    | (Throw e, s') => (Throw e, s')
    end.

(** An expression that may throw, inside effectful code. *)
Definition lift {S A} (o : outcome A) : Eff S A := fun s => (o, s).

(** [try { c } catch (e) { h e }]. *)
Definition try_catch {S A} (c : Eff S A) (h : exn -> Eff S A) : Eff S A :=
  fun s =>
    match c s with
    | (Return a, s') => (Return a, s')
    | (Throw e, s') => h e s'
    end.

(** A statement that only changes the state. *)
Definition modify {S} (f : S -> S) : Eff S unit := fun s => (Return tt, f s).

Definition read {S} : Eff S S := fun s => (Return s, s).

(** Sequencing of expressions that may throw but have no other effect. *)
Definition obind {A B} (o : outcome A) (k : A -> outcome B) : outcome B :=
  match o with
  | Return a => k a
  | Throw e => Throw e
  end.

End JS.

Declare Scope eff_scope.
Delimit Scope eff_scope with eff.
Notation "x <- c ;; k" := (JS.bind c (fun x => k))
  (at level 61, c at next level, right associativity) : eff_scope.
Notation "c ;; k" := (JS.bind c (fun _ => k))
  (at level 61, right associativity) : eff_scope.

Declare Scope outcome_scope.
Delimit Scope outcome_scope with outcome.
Notation "x <- c ;; k" := (JS.obind c (fun x => k))
  (at level 61, c at next level, right associativity) : outcome_scope.

(* ===================================================================== *)
(** ** Requests and responses                                             *)
(* ===================================================================== *)

Module Http.
Import JS.

(** The part of [req] the handlers read. *)
Record Request : Type := {
  method : string;
  body : value
}.

(** What a handler leaves in [res]: the headers set, the status, and the
    JSON body ([None] after [end()]). *)
Record Response : Type := {
  headers : list (string * string);
  status : Z;
  json : option value
}.

(** What a [fetch] gives: a rejection (network failure), or a response
    with its status and body text. *)
Inductive FetchResult : Type :=
| Rejected (e : exn)
| Responded (status : Z) (text : string).

(** [response.ok]. *)
Definition ok (status : Z) : bool := (200 <=? status)%Z && (status <=? 299)%Z.

(** [response.json()]. *)
Definition response_json (host : Host) (text : string) : outcome value :=
  match JSON_parse host text with
  | inl m => Throw (SyntaxError m)
  | inr v => Return v
  end.

End Http.

(* ===================================================================== *)
(** ** The multi-turn proxy handler                                       *)
(* ===================================================================== *)

Module Proxy.
Import JS Http.

(** [process.env.ANTHROPIC_API_KEY]: unset, or a string. *)
Definition Env : Type := option string.

Record ClaudeMessage : Type := {
  role : string;
  content : string
}.

(** [anthropicPayload]; [system] is present only when the spread adds it. *)
Record Payload : Type := {
  model : string;
  max_tokens : number;
  messages : list ClaudeMessage;
  temperature : number;
  system : option value
}.

(** One [fetch] to the provider. *)
Record UpstreamCall : Type := {
  url : string;
  x_api_key : string;
  anthropic_version : string;
  payload : Payload
}.

Definition cors : list (string * string) :=
  [ ("Access-Control-Allow-Origin", "*");
    ("Access-Control-Allow-Methods", "GET, POST, OPTIONS");
    ("Access-Control-Allow-Headers", "Content-Type") ].

(** [res.status(code).end()] and [res.status(code).json(body)]. *)
Definition res_end (code : Z) : Response :=
  {| headers := cors; status := code; json := None |}.

Definition res_json (code : Z) (b : value) : Response :=
  {| headers := cors; status := code; json := Some b |}.

Definition error_body (msg : string) : value :=
  Obj [("error", Str msg)].

Definition error_details (msg details : string) : value :=
  Obj [("error", Str msg); ("details", Str details)].

Definition not_configured : value :=
  error_body "API key not configured. Please set ANTHROPIC_API_KEY in your Vercel environment variables.".

(** [{choices: [{message: {content, role: "assistant"}}]}]. *)
Definition choices_body (text : string) : value :=
  Obj [("choices",
        Arr [Obj [("message",
                   Obj [("content", Str text); ("role", Str "assistant")])]])].

Section WithHost.
Variable host : Host.
(** The provider, as seen from the handler. *)
Variable upstream : UpstreamCall -> FetchResult.

(** The handler's effects: the calls made to the provider so far. *)
Definition M : Type -> Type := Eff (list UpstreamCall).

(** [await fetch(...)], then [await response.text()]. *)
Definition fetch (c : UpstreamCall) : M (Z * string) :=
  fun calls =>
    (match upstream c with
     | Rejected e => Throw e
     | Responded st text => Return (st, text)
     end, (calls ++ [c])%list).

(** [messages.filter(msg => msg.role && msg.content)]. *)
Fixpoint filter_valid (ms : list value) : outcome (list value) :=
  match ms with
  | [] => Return []
  | msg :: rest =>
      (r <- get msg "role" ;;
       keep <- (if truthy r
                then (c <- get msg "content" ;; Return (truthy c))
                else Return false) ;;
       rest' <- filter_valid rest ;;
       Return (if keep then msg :: rest' else rest'))%outcome
  end.

(** [content.toString()]: a method call, so a TypeError on null and
    undefined, on an object whose own [toString] hides the inherited one,
    and on an array with an element that has no text form. *)
Definition call_toString (v : value) : outcome string :=
  match v with
  | Undefined => Throw (cannot_read "undefined" "toString")
  | Null => Throw (cannot_read "null" "toString")
  | Obj fs =>
      if has_own "toString" fs
      then Throw (TypeError "msg.content.toString is not a function")
      else Return (toString host v)
  | _ => if printable v then Return (toString host v) else Throw cannot_convert
  end.

(** [.map(msg => ({role: ..., content: msg.content.toString().trim()}))]. *)
Fixpoint map_claude (ms : list value) : outcome (list ClaudeMessage) :=
  match ms with
  | [] => Return []
  | msg :: rest =>
      (r <- get msg "role" ;;
       c <- get msg "content" ;;
       s <- call_toString c ;;
       rest' <- map_claude rest ;;
       Return ({| role := if is_string r "assistant" then "assistant" else "user";
                  content := trim s |} :: rest'))%outcome
  end.

(** [.filter(msg => msg.content.length > 0)]. *)
Definition nonempty (m : ClaudeMessage) : bool :=
  (0 <? String.length (content m))%nat.

(** [claudeMessages] (lines 105-111). *)
Definition claudeMessages (ms : list value) : outcome (list ClaudeMessage) :=
  (valid <- filter_valid ms ;;
   mapped <- map_claude valid ;;
   Return (filter nonempty mapped))%outcome.

(** [Math.min(Math.max(length || 1024, 1), 4096)]. *)
Definition clamp_max_tokens (length : value) : number :=
  Math_min
    (Math_max (ToNumber host (if truthy length then length else Number (Num 1024)))
              (Num 1))
    (Num 4096).

(** [creativity ? Math.min(creativity / 100, 1) : 0.7]. *)
Definition to_temperature (creativity : value) : number :=
  if truthy creativity
  then Math_min (div (ToNumber host creativity) 100) (Num 1)
  else Num (7 # 10).

(** [anthropicPayload] (lines 122-129). [Math.max] and [/] convert their
    operand to a number first, which throws on a value that is not
    [printable]. *)
Definition anthropicPayload (cm : list ClaudeMessage) (options : value)
  : outcome Payload :=
  (length <- get options "length" ;;
   creativity <- get options "creativity" ;;
   sys <- get options "system" ;;
   _ <- to_primitive (if truthy length then length else Number (Num 1024)) ;;
   _ <- (if truthy creativity then to_primitive creativity else Return tt) ;;
   Return {| model := "claude-sonnet-4-20250514";
             max_tokens := clamp_max_tokens length;
             messages := cm;
             temperature := to_temperature creativity;
             system := if truthy sys then Some sys else None |})%outcome.

(** The message of the error thrown on a response that is not ok
    (lines 148-155): the provider's message when the body parses and holds
    one, else the status line, with an excerpt of the body when the inner
    [try] throws. When the provider's message is a value with no text
    form, [new Error] throws the TypeError of the conversion instead, and
    the message is that of the TypeError. *)
Definition errorMessage (st : Z) (responseText : string) : string :=
  let base := "Claude API Error: " ++ Z_toString st in
  let excerpt := base ++ " - " ++ substring0 200 responseText in
  match JSON_parse host responseText with
  | inl _ => excerpt
  | inr errorData =>
      match (e <- get errorData "error" ;;
             m1 <- get_opt e "message" ;;
             if truthy m1 then Return m1
             else (m2 <- get errorData "message" ;;
                   Return (if truthy m2 then m2 else Str base)))%outcome
      with
      | Return v =>
          if printable v then toString host v else message cannot_convert
      | Throw _ => excerpt
      end
  end.

(** The extraction of the reply text from a body of an ok response
    (lines 158-193). *)
Definition responseContent (responseText : string) : outcome string :=
  match JSON_parse host responseText with
  | inl _ => Throw (Error "Invalid JSON response from Claude API")
  | inr data =>
      (c <- get data "content" ;;
       match c with
       | Arr items =>
           if (List.length items =? 0)%nat
           then Throw (Error "Empty response from Claude API")
           else
             let firstContent := nth 0 items Undefined in
             if negb (truthy firstContent)
             then Throw (Error "Invalid content format from Claude API")
             else
               (t <- get firstContent "text" ;;
                match t with
                | Str text =>
                    if trim text =? ""
                    then Throw (Error "Empty response content from Claude API")
                    else Return (trim text)
                | _ => Throw (Error "Invalid content format from Claude API")
                end)
       | _ => Throw (Error "Invalid response format from Claude API - no content array")
       end)%outcome
  end.

(** The request of lines 133-141. *)
Definition request (apiKey : string) (p : Payload) : UpstreamCall :=
  {| url := "https://api.anthropic.com/v1/messages";
     x_api_key := apiKey;
     anthropic_version := "2023-06-01";
     payload := p |}.

(** [fetchClaudeResponse(messages, options, apiKey)]; [messages] is an
    array when the handler calls it. *)
Definition fetchClaudeResponse (ms : list value) (options : value)
           (apiKey : string) : M string :=
  (cm <- lift (claudeMessages ms) ;;
   match cm with
   | [] => throw (Error "No valid messages to send")
   | m0 :: _ =>
       if negb (role m0 =? "user")
       then throw (Error "Conversation must start with a user message")
       else
         p <- lift (anthropicPayload cm options) ;;
         resp <- fetch (request apiKey p) ;;
         let (st, responseText) := resp in
         if negb (ok st)
         then throw (Error (errorMessage st responseText))
         else lift (responseContent responseText)
   end)%eff.

(** The body of [try] in [handler] (lines 17-72). *)
Definition try_block (req : Request) (env : Env) : M Response :=
  (ms <- lift (get (body req) "messages") ;;
   options <- lift (get (body req) "options") ;;
   match ms with
   | Arr items =>
       if negb (truthy options)
       then ret (res_json 400 (error_body "Missing options"))
       else
         match env with
         | Some key =>
             if key =? "" then ret (res_json 500 not_configured)
             else
               ping <- lift (if (List.length items =? 1)%nat
                             then (c <- get (nth 0 items Undefined) "content" ;;
                                   Return (is_string c "ping"))%outcome
                             else Return false) ;;
               if (ping : bool)
               then ret (res_json 200 (choices_body "pong"))
               else
                 responseText <- fetchClaudeResponse items options key ;;
                 if (responseText =? "") || (trim responseText =? "")
                 then ret (res_json 500 (error_body "Empty response from AI"))
                 else ret (res_json 200 (choices_body responseText))
         | None => ret (res_json 500 not_configured)
         end
   | _ => ret (res_json 400 (error_body "Invalid messages format"))
   end)%eff.

(** The [catch] of [handler] (lines 74-99). *)
Definition catch_block (err : exn) : M Response :=
  let m := message err in
  if includes m "401"
  then ret (res_json 500 (error_details
         "Authentication failed. Please check your ANTHROPIC_API_KEY." m))
  else if includes m "429"
  then ret (res_json 500 (error_details
         "Rate limit exceeded. Please try again later." m))
  else if includes m "400"
  then ret (res_json 500 (error_details "Invalid request format." m))
  else ret (res_json 500 (error_details "Server error" m)).

(** [handler(req, res)]. The [catch] cannot throw: [err.message] is a
    string for every value thrown in the [try]. *)
Definition handler_eff (req : Request) (env : Env) : M Response :=
  if method req =? "OPTIONS" then ret (res_end 200)
  else if negb (method req =? "POST")
  then ret (res_json 405 (error_body "Method not allowed"))
  else try_catch (try_block req env) catch_block.

(** A run of the handler from a fresh invocation: the response it leaves
    (or the exception that escapes it), and the calls it made to the
    provider. *)
Definition handler (req : Request) (env : Env)
  : outcome Response * list UpstreamCall :=
  handler_eff req env [].

End WithHost.
End Proxy.

(* ===================================================================== *)
(** ** The single-message forwarder (src/api/chat.js)                     *)
(* ===================================================================== *)

Module Forwarder.
Import JS Http.

(** [process.env.CLAUDE_API_KEY]. *)
Definition Env : Type := option string.

(** One [fetch] to the provider: the body is
    [{model, max_tokens: 1024, messages: [{role: "user", content: message}]}]. *)
Record UpstreamCall : Type := {
  url : string;
  x_api_key : string;
  anthropic_version : string;
  model : string;
  max_tokens : Z;
  message : value
}.

Definition cors : list (string * string) :=
  [ ("Access-Control-Allow-Origin", "*");
    ("Access-Control-Allow-Methods", "POST, OPTIONS");
    ("Access-Control-Allow-Headers", "Content-Type, Authorization") ].

Definition res_end (code : Z) : Response :=
  {| headers := cors; status := code; json := None |}.

Definition res_json (code : Z) (b : value) : Response :=
  {| headers := cors; status := code; json := Some b |}.

Section WithHost.
Variable host : Host.
Variable upstream : UpstreamCall -> FetchResult.

Definition M : Type -> Type := Eff (list UpstreamCall).

(** [await fetch(...)]: the response, its body not yet read. *)
Definition fetch (c : UpstreamCall) : M (Z * string) :=
  fun calls =>
    (match upstream c with
     | Rejected e => Throw e
     | Responded st text => Return (st, text)
     end, (calls ++ [c])%list).

(** The request of lines 30-44. *)
Definition request (key : string) (msg : value) : UpstreamCall :=
  {| url := "https://api.anthropic.com/v1/messages";
     x_api_key := key;
     anthropic_version := "2023-06-01";
     model := "claude-sonnet-4-20250514";
     max_tokens := 1024;
     message := msg |}.

(** [!process.env.CLAUDE_API_KEY]. *)
Definition unset (env : Env) : bool :=
  match env with
  | Some key => key =? ""
  | None => true
  end.

(** The body of [try] (lines 23-57). *)
Definition try_block (msg : value) (env : Env) : M Response :=
  (if unset env
   then ret (res_json 500 (Obj [("error", Str "API key not configured")]))
   else
     resp <- fetch (request (match env with Some key => key | None => "" end) msg) ;;
     let (st, text) := resp in
     if negb (ok st)
     then
       errorData <- lift (response_json host text) ;;
       e <- lift (get errorData "error") ;;
       m <- lift (get_opt e "message") ;;
       ret (res_json st
              (Obj [("error", Str "Failed to process request");
                    ("details", if truthy m then m else Str "Unknown error")]))
     else
       data <- lift (response_json host text) ;;
       c <- lift (get data "content") ;;
       c0 <- lift (first c) ;;
       responseText <- lift (get c0 "text") ;;
       ret (res_json 200 (Obj [("response", responseText)])))%eff.

(** The [catch] (lines 58-64). *)
Definition catch_block (error : exn) : M Response :=
  ret (res_json 500 (Obj [("error", Str "Failed to process request");
                          ("details", Str (JS.message error))])).

(** [handler(req, res)]. The destructuring of [req.body] is outside the
    [try]: its TypeError escapes the handler. *)
Definition handler_eff (req : Request) (env : Env) : M Response :=
  (if method req =? "OPTIONS" then ret (res_end 200)
   else if negb (method req =? "POST")
   then ret (res_json 405 (Obj [("error", Str "Method not allowed")]))
   else
     msg <- lift (get (body req) "message") ;;
     if negb (truthy msg)
     then ret (res_json 400 (Obj [("error", Str "Message is required")]))
     else try_catch (try_block msg env) catch_block)%eff.

Definition handler (req : Request) (env : Env)
  : outcome Response * list UpstreamCall :=
  handler_eff req env [].

End WithHost.
End Forwarder.

(* ===================================================================== *)
(** ** The browser client                                                 *)
(* ===================================================================== *)

Module Client.
Import JS Http.

(** An entry of [state.chat.messages]. *)
Record Turn : Type := {
  type : string;
  content : value
}.

(** [{role, content}] in the request body. *)
Record ReqMessage : Type := {
  role : string;
  req_content : value
}.

(** [options] in the request body. *)
Record Options : Type := {
  length : Z;
  creativity : Z;
  system : string
}.

(** One [fetch] to [API_CONFIG.endpoint]. *)
Record ProxyCall : Type := {
  endpoint : string;
  http_method : string;
  content_type : string;
  messages : list ReqMessage;
  options : Options
}.

(** What [sendMessage] does to the display: the calls to the page's
    helpers, the hiding of the empty state (lines 35-37) and the
    activation of the right sidebar (line 48). *)
Inductive UIEvent : Type :=
| showToast (text kind : string)
| hideEmptyState
| showTypingIndicator
| removeTypingIndicator
| activateSidebar
| extractCodeFromResponse (response : value)
| updateQuotaBar
| addToChatHistory (text : string).

(** The page's state that [sendMessage] reads and writes: the input box,
    the send button, the global [state], the helper calls made and the
    requests issued so far. Counters are integers. *)
Record State : Type := {
  input : string;
  sendDisabled : bool;
  chat_messages : list Turn;
  pendingMessages : list string;
  hasMessages : bool;
  quota_used : Z;
  quota_messagesLeft : Z;
  api_status : string;
  ui : list UIEvent;
  sent : list ProxyCall
}.

Definition API_endpoint : string := "/api/chat".

Definition apology : string :=
  "I apologize, but I encountered an error while processing your request. Please try again.".

Definition set_input (v : string) (s : State) : State :=
  {| input := v; sendDisabled := sendDisabled s;
     chat_messages := chat_messages s; pendingMessages := pendingMessages s;
     hasMessages := hasMessages s; quota_used := quota_used s;
     quota_messagesLeft := quota_messagesLeft s; api_status := api_status s;
     ui := ui s; sent := sent s |}.

Definition set_sendDisabled (b : bool) (s : State) : State :=
  {| input := input s; sendDisabled := b;
     chat_messages := chat_messages s; pendingMessages := pendingMessages s;
     hasMessages := hasMessages s; quota_used := quota_used s;
     quota_messagesLeft := quota_messagesLeft s; api_status := api_status s;
     ui := ui s; sent := sent s |}.

Definition set_chat_messages (l : list Turn) (s : State) : State :=
  {| input := input s; sendDisabled := sendDisabled s;
     chat_messages := l; pendingMessages := pendingMessages s;
     hasMessages := hasMessages s; quota_used := quota_used s;
     quota_messagesLeft := quota_messagesLeft s; api_status := api_status s;
     ui := ui s; sent := sent s |}.

Definition set_pendingMessages (l : list string) (s : State) : State :=
  {| input := input s; sendDisabled := sendDisabled s;
     chat_messages := chat_messages s; pendingMessages := l;
     hasMessages := hasMessages s; quota_used := quota_used s;
     quota_messagesLeft := quota_messagesLeft s; api_status := api_status s;
     ui := ui s; sent := sent s |}.

Definition set_hasMessages (b : bool) (s : State) : State :=
  {| input := input s; sendDisabled := sendDisabled s;
     chat_messages := chat_messages s; pendingMessages := pendingMessages s;
     hasMessages := b; quota_used := quota_used s;
     quota_messagesLeft := quota_messagesLeft s; api_status := api_status s;
     ui := ui s; sent := sent s |}.

Definition set_quota (used left : Z) (s : State) : State :=
  {| input := input s; sendDisabled := sendDisabled s;
     chat_messages := chat_messages s; pendingMessages := pendingMessages s;
     hasMessages := hasMessages s; quota_used := used;
     quota_messagesLeft := left; api_status := api_status s;
     ui := ui s; sent := sent s |}.

Definition set_ui (l : list UIEvent) (s : State) : State :=
  {| input := input s; sendDisabled := sendDisabled s;
     chat_messages := chat_messages s; pendingMessages := pendingMessages s;
     hasMessages := hasMessages s; quota_used := quota_used s;
     quota_messagesLeft := quota_messagesLeft s; api_status := api_status s;
     ui := l; sent := sent s |}.

Definition set_sent (l : list ProxyCall) (s : State) : State :=
  {| input := input s; sendDisabled := sendDisabled s;
     chat_messages := chat_messages s; pendingMessages := pendingMessages s;
     hasMessages := hasMessages s; quota_used := quota_used s;
     quota_messagesLeft := quota_messagesLeft s; api_status := api_status s;
     ui := ui s; sent := l |}.

Definition M : Type -> Type := Eff State.

(** Modelled from the spec: the helpers [showToast], [showTypingIndicator],
    [removeTypingIndicator], [extractCodeFromResponse], [updateQuotaBar]
    and [addToChatHistory] are functions of the page that are not in the
    source files; the specification counts them as display (toast
    notifications, typing-indicator animations, quota UI, chat history list
    rendering), so a call is recorded in [ui] and changes nothing else. *)
Definition emit (e : UIEvent) : M unit :=
  modify (fun s => set_ui (ui s ++ [e])%list s).

(** Modelled from the spec: [addMessage(type, content)], a function of the
    page that is not in the source files; it appends the turn to the local
    conversation history ("appends the new user turn to local conversation
    history", "appends the returned assistant text as a new turn", "appends
    a fixed user-visible apology turn"). *)
Definition addMessage (ty : string) (c : value) : M unit :=
  modify (fun s =>
    set_chat_messages (chat_messages s ++ [{| type := ty; content := c |}])%list s).

Section WithHost.
Variable host : Host.
(** The proxy, as seen from the page. *)
Variable proxy : ProxyCall -> FetchResult.

(** [await fetch(API_CONFIG.endpoint, ...)]. *)
Definition fetch (c : ProxyCall) : M (Z * string) :=
  fun s =>
    (match proxy c with
     | Rejected e => Throw e
     | Responded st text => Return (st, text)
     end, set_sent (sent s ++ [c])%list s).

(** [pendingMessages.filter(msg => msg !== message)]. *)
Definition remove_pending (message : string) : M unit :=
  modify (fun s =>
    set_pendingMessages
      (filter (fun msg => negb (msg =? message)) (pendingMessages s)) s).

(** [messages] (lines 55-61): the history, then the new user message. *)
Definition request_messages (s : State) (message : string) : list ReqMessage :=
  (map (fun msg => {| role := type msg; req_content := content msg |})
       (chat_messages s)
   ++ [{| role := "user"; req_content := Str message |}])%list.

(** [options] (lines 63-67). *)
Definition default_options : Options :=
  {| length := 1024; creativity := 70;
     system := "You are a helpful AI assistant. Be concise and helpful." |}.

(** The request of lines 71-78. *)
Definition request (ms : list ReqMessage) (o : Options) : ProxyCall :=
  {| endpoint := API_endpoint; http_method := "POST";
     content_type := "application/json";
     messages := ms; options := o |}.

(** The body of [try] in [sendMessage] (lines 70-107). *)
Definition try_block (message : string) (ms : list ReqMessage) (o : Options)
  : M unit :=
  (resp <- fetch (request ms o) ;;
   let (st, text) := resp in
   if negb (ok st)
   then throw (Error ("API request failed with status " ++ Z_toString st))
   else
     data <- lift (response_json host text) ;;
     choices <- lift (get data "choices") ;;
     c0 <- lift (first choices) ;;
     m <- lift (get c0 "message") ;;
     aiResponse <- lift (get m "content") ;;
     emit removeTypingIndicator ;;
     addMessage "ai" aiResponse ;;
     emit (extractCodeFromResponse aiResponse) ;;
     modify (fun s => set_quota (quota_used s + 1) (quota_messagesLeft s - 1) s) ;;
     emit updateQuotaBar ;;
     remove_pending message ;;
     emit (addToChatHistory message) ;;
     emit (showToast "Response generated successfully!" "success"))%eff.

(** The [catch] of [sendMessage] (lines 109-121). *)
Definition catch_block (message : string) (error : exn) : M unit :=
  (emit removeTypingIndicator ;;
   addMessage "ai" (Str apology) ;;
   emit (showToast ("Failed to generate response: " ++ JS.message error) "error") ;;
   remove_pending message)%eff.

(** [sendMessage()], one invocation run to its end. *)
Definition sendMessage : M unit :=
  (s <- read ;;
   let message := trim (input s) in
   if (message =? "") || (0 <? List.length (pendingMessages s))%nat
   then ret tt
   else if (quota_messagesLeft s <=? 0)%Z
   then emit (showToast "Message quota exceeded. Please upgrade your plan." "error")
   else if negb (api_status s =? "online")
   then emit (showToast "AI is currently offline. Please try again later." "error")
   else
     modify (set_input "") ;;
     modify (set_sendDisabled true) ;;
     emit hideEmptyState ;;
     addMessage "user" (Str message) ;;
     emit showTypingIndicator ;;
     s0 <- read ;;
     (if hasMessages s0 then ret tt
      else (modify (set_hasMessages true) ;; emit activateSidebar)) ;;
     modify (fun s => set_pendingMessages (pendingMessages s ++ [message])%list s) ;;
     s1 <- read ;;
     try_catch (try_block message (request_messages s1 message) default_options)
               (catch_block message))%eff.

End WithHost.
End Client.

(* ===================================================================== *)
(** ** Notions used to state the facts                                     *)
(* ===================================================================== *)

Module ProxyNotions.
Import JS Http Proxy.

(** The mapping of creativity as the specification words it: creativity
    over 100, clamped into [0, 1]; 0.7 when absent. *)
Definition spec_temperature (creativity : option Q) : number :=
  match creativity with
  | None => Num (7 # 10)
  | Some c => Num (Qmax 0 (Qmin (c / 100) 1))
  end.

(** The clamp of the requested length as the specification words it. *)
Definition spec_max_tokens (length : Q) : number :=
  Num (Qmin (Qmax length 1) 4096).

(** What [fetchClaudeResponse] makes of the result of its [fetch]. *)
Definition after_fetch (host : Host) (r : FetchResult) : outcome string :=
  match r with
  | Rejected e => Throw e
  | Responded st text =>
      if negb (ok st) then Throw (Error (errorMessage host st text))
      else responseContent host text
  end.

(** The response the [catch] of [handler] leaves for an error. *)
Definition on_error (err : exn) : Response :=
  let m := message err in
  if includes m "401"
  then res_json 500 (error_details
         "Authentication failed. Please check your ANTHROPIC_API_KEY." m)
  else if includes m "429"
  then res_json 500 (error_details "Rate limit exceeded. Please try again later." m)
  else if includes m "400"
  then res_json 500 (error_details "Invalid request format." m)
  else res_json 500 (error_details "Server error" m).

(** What [handler] makes of the outcome of [fetchClaudeResponse]. *)
Definition finish (o : outcome string) : Response :=
  match o with
  | Return responseText =>
      if (responseText =? "") || (trim responseText =? "")
      then res_json 500 (error_body "Empty response from AI")
      else res_json 200 (choices_body responseText)
  | Throw e => on_error e
  end.

(** The provider failed: the [fetch] was rejected, or the status is not ok. *)
Definition upstream_failed (r : FetchResult) : Prop :=
  match r with
  | Rejected _ => True
  | Responded st _ => ok st = false
  end.

(** The single-entry probe of lines 41-42. *)
Definition ping_probe (items : list value) : bool :=
  match items with
  | [m] =>
      match get m "content" with
      | Return c => is_string c "ping"
      | Throw _ => false
      end
  | _ => false
  end.

Definition ping_message : value :=
  Obj [("role", Str "user"); ("content", Str "ping")].

Definition post (b : value) : Request := {| method := "POST"; body := b |}.

Definition proxy_body (items : list value) (options : value) : value :=
  Obj [("messages", Arr items); ("options", options)].

(** Concrete inputs. *)
Definition plain_host : Host := table_host [].

Definition options_with (key : string) (v : value) : value := Obj [(key, v)].

(** A provider that cannot be reached. *)
Definition no_network : UpstreamCall -> FetchResult :=
  fun _ => Rejected (TypeError "fetch failed").

(** A provider that answers every call alike. *)
Definition answering (st : Z) (text : string) : UpstreamCall -> FetchResult :=
  fun _ => Responded st text.

Definition chat_message (r c : string) : value :=
  Obj [("role", Str r); ("content", Str c)].

Definition hello_call : UpstreamCall :=
  request "secret"
    {| model := "claude-sonnet-4-20250514"; max_tokens := Num 1024;
       messages := [{| role := "user"; content := "hello" |}];
       temperature := Num (7 # 10); system := None |}.

(** A host whose parser reads the text EMPTY as [{content: []}]. *)
Definition empty_content_host : Host :=
  table_host [("EMPTY", Obj [("content", Arr [])])].

Definition payload_with (max temp : number) : Payload :=
  {| model := "claude-sonnet-4-20250514"; max_tokens := max;
     messages := []; temperature := temp; system := None |}.

End ProxyNotions.

(* ===================================================================== *)
(** ** Notions used to state the facts about the forwarder                *)
(* ===================================================================== *)

Module ForwarderNotions.
Import JS Http.

(** The four status codes of the specification. *)
Definition documented_status (st : Z) : Prop := In st [200; 400; 405; 500]%Z.

(** A host whose parser reads the text RATE as
    [{error: {message: "Too many requests"}}]. *)
Definition rate_host : Host :=
  table_host [("RATE", Obj [("error", Obj [("message", Str "Too many requests")])])].

(** A provider that answers every call with status 429 and the body RATE. *)
Definition rate_limited : Forwarder.UpstreamCall -> FetchResult :=
  fun _ => Responded 429 "RATE".

Definition forward_post (msg : value) : Request :=
  {| method := "POST"; body := Obj [("message", msg)] |}.

End ForwarderNotions.

(* ===================================================================== *)
(** ** Notions used to state the facts about the client                   *)
(* ===================================================================== *)

Module ClientNotions.
Import JS Http Client.

(** The ways a send fails, each with the message of the error thrown: the
    [fetch] is rejected, the status is not ok, or the body is not JSON. *)
Inductive send_failure (host : Host) : FetchResult -> string -> Prop :=
| network_error e :
    send_failure host (Rejected e) (message e)
| bad_status st text :
    ok st = false ->
    send_failure host (Responded st text)
                 ("API request failed with status " ++ Z_toString st)
| malformed_json st text m :
    ok st = true ->
    JSON_parse host text = inl m ->
    send_failure host (Responded st text) m.

(** The guards of lines 14-27 let the send through. *)
Definition may_send (s : State) : Prop :=
  trim (input s) <> "" /\ pendingMessages s = [] /\
  (0 < quota_messagesLeft s)%Z /\ api_status s = "online".

Definition user_turn (s : State) : Turn :=
  {| type := "user"; content := Str (trim (input s)) |}.

Definition apology_turn : Turn :=
  {| type := "ai"; content := Str apology |}.

(** The request a send issues from state [s]. *)
Definition issued_call (s : State) : ProxyCall :=
  request
    (request_messages
       (set_chat_messages (chat_messages s ++ [user_turn s]) s)
       (trim (input s)))
    default_options.

(** Concrete states and proxies. *)
Definition fresh_state (text : string) (pending : list string) (left : Z)
  : State :=
  {| input := text; sendDisabled := false; chat_messages := [];
     pendingMessages := pending; hasMessages := false;
     quota_used := 0; quota_messagesLeft := left;
     api_status := "online"; ui := []; sent := [] |}.

Definition unreachable_proxy : ProxyCall -> FetchResult :=
  fun _ => Rejected (TypeError "Failed to fetch").

End ClientNotions.

(* ===================================================================== *)
(** ** The liveness check of the client                                   *)
(* ===================================================================== *)

Module Status.
Import JS Http.

(** The page around [checkApiStatus]: the session that [sendMessage] works
    on, [state.api.lastCheck], the class of the status dot, the text of
    the status label, and the bodies of the probes sent so far. *)
Record Page : Type := {
  session : Client.State;
  lastCheck : option Z;
  statusDot_className : string;
  statusText_textContent : string;
  probes : list value
}.

(** [state.api.status = v]. *)
Definition set_api_status (v : string) (s : Client.State) : Client.State :=
  {| Client.input := Client.input s;
     Client.sendDisabled := Client.sendDisabled s;
     Client.chat_messages := Client.chat_messages s;
     Client.pendingMessages := Client.pendingMessages s;
     Client.hasMessages := Client.hasMessages s;
     Client.quota_used := Client.quota_used s;
     Client.quota_messagesLeft := Client.quota_messagesLeft s;
     Client.api_status := v;
     Client.ui := Client.ui s;
     Client.sent := Client.sent s |}.

(** Lines 140-142 and 153-155: the status with its dot and its label. *)
Definition show_status (st dot label : string) (p : Page) : Page :=
  {| session := set_api_status st (session p);
     lastCheck := lastCheck p;
     statusDot_className := dot;
     statusText_textContent := label;
     probes := probes p |}.

Definition set_lastCheck (t : Z) (p : Page) : Page :=
  {| session := session p;
     lastCheck := Some t;
     statusDot_className := statusDot_className p;
     statusText_textContent := statusText_textContent p;
     probes := probes p |}.

Definition log_probe (b : value) (p : Page) : Page :=
  {| session := session p;
     lastCheck := lastCheck p;
     statusDot_className := statusDot_className p;
     statusText_textContent := statusText_textContent p;
     probes := (probes p ++ [b])%list |}.

(** The body of the probe (lines 131-134). *)
Definition probe_body : value :=
  Obj [("messages", Arr [Obj [("role", Str "user"); ("content", Str "ping")]]);
       ("options", Obj [("length", Number (Num 10))])].

Definition M : Type -> Type := Eff Page.

Section WithHost.
Variable host : Host.
(** What the [fetch] of the probe gives. *)
Variable probe : FetchResult.
(** [new Date()], as a number. *)
Variable now : Z.

(** [await fetch(API_CONFIG.endpoint, ...)] of lines 128-135. *)
Definition fetch_probe : M (Z * string) :=
  fun p =>
    (match probe with
     | Rejected e => Throw e
     | Responded st text => Return (st, text)
     end, log_probe probe_body p).

(** [data.choices && data.choices[0].message.content === 'pong']. *)
Definition is_pong (data : value) : outcome bool :=
  (choices <- get data "choices" ;;
   if truthy choices
   then (c0 <- first choices ;;
         m <- get c0 "message" ;;
         c <- get m "content" ;;
         Return (is_string c "pong"))
   else Return false)%outcome.

(** The body of [try] in [checkApiStatus] (lines 127-150). *)
Definition try_block : M unit :=
  (resp <- fetch_probe ;;
   let (st, text) := resp in
   (if ok st
    then
      data <- lift (response_json host text) ;;
      pong <- lift (is_pong data) ;;
      if (pong : bool)
      then modify (show_status "online" "status-dot online" "Online")
      else throw (Error "Invalid ping response")
    else throw (Error ("API returned status " ++ Z_toString st))) ;;
   modify (set_lastCheck now))%eff.

(** The [catch] of [checkApiStatus] (lines 151-156). *)
Definition catch_block (error : exn) : M unit :=
  modify (show_status "offline" "status-dot offline" "Offline").

(** [checkApiStatus()], one invocation run to its end. *)
Definition checkApiStatus : M unit :=
  try_catch try_block catch_block.

End WithHost.
End Status.

(* ===================================================================== *)
(** ** Notions used to state further facts                                *)
(* ===================================================================== *)

Module MoreNotions.
Import JS Http.

(** A message as the provider gets it: a role the provider knows, and a
    content that is not empty and has no blank at either end. *)
Definition clean (m : Proxy.ClaudeMessage) : Prop :=
  (Proxy.role m = "user" \/ Proxy.role m = "assistant") /\
  Proxy.content m <> "" /\
  trim (Proxy.content m) = Proxy.content m.

(** A string that does not start with a blank. *)
Definition starts_clean (s : string) : Prop :=
  match s with
  | EmptyString => True
  | String c _ => is_space c = false
  end.

(** A number that is NaN or lies between two bounds. *)
Definition within (lo hi : Q) (n : number) : Prop :=
  match n with
  | NaN => True
  | Num q => (lo <= q)%Q /\ (q <= hi)%Q
  end.

(** A number that is NaN or at most a bound. *)
Definition at_most (hi : Q) (n : number) : Prop :=
  match n with
  | NaN => True
  | Num q => (q <= hi)%Q
  end.

(** A conversation of text turns, as pairs of a role and a content, and
    the array of [{role, content}] objects that carries it. *)
Definition turn_object (t : string * string) : value :=
  Obj [("role", Str (fst t)); ("content", Str (snd t))].

(** The turns that line 106 keeps: role and content not empty. *)
Definition kept (t : string * string) : bool :=
  negb (fst t =? "") && negb (snd t =? "").

(** Lines 107-110 on a text turn. *)
Definition coerce (t : string * string) : Proxy.ClaudeMessage :=
  {| Proxy.role := if fst t =? "assistant" then "assistant" else "user";
     Proxy.content := trim (snd t) |}.

(** The request body of the client as the proxy reads it: what
    [JSON.stringify] writes and the body parser of the proxy reads back. *)
Definition wire_message (m : Client.ReqMessage) : value :=
  Obj [("role", Str (Client.role m)); ("content", Client.req_content m)].

Definition wire_options (o : Client.Options) : value :=
  Obj [("length", Number (of_Z (Client.length o)));
       ("creativity", Number (of_Z (Client.creativity o)));
       ("system", Str (Client.system o))].

Definition wire_call (c : Client.ProxyCall) : Request :=
  {| method := Client.http_method c;
     body := Obj [("messages", Arr (map wire_message (Client.messages c)));
                  ("options", wire_options (Client.options c))] |}.

(** A response of a handler reaches the page: same status, and a body text
    that parses to the JSON body the handler wrote. *)
Definition delivers (host : Host) (r : Response) (f : FetchResult) : Prop :=
  exists text b,
    f = Responded (status r) text /\
    json r = Some b /\
    JSON_parse host text = inr b.

(** The probe was answered as lines 137-139 ask: an ok status, a JSON
    body, and "pong" under [choices[0].message.content]. *)
Definition answers_pong (host : Host) (probe : FetchResult) : bool :=
  match probe with
  | Rejected _ => false
  | Responded st text =>
      ok st &&
      match response_json host text with
      | Return data =>
          match Status.is_pong data with
          | Return b => b
          | Throw _ => false
          end
      | Throw _ => false
      end
  end.

(** A history of text turns of the page, of the types the page uses. *)
Definition page_turn (t : Client.Turn) : Prop :=
  (Client.type t = "user" \/ Client.type t = "ai") /\
  exists c, Client.content t = Str c.

(** Concrete inputs. *)
Definition pong_text : string := "PONG".

(** A host whose parser reads the text PONG as the canned reply, and the
    text GREETING as a reply of the provider with the text " Hello! ". *)
Definition pong_host : Host :=
  table_host
    [("PONG", Proxy.choices_body "pong");
     ("GREETING", Obj [("content", Arr [Obj [("type", Str "text");
                                             ("text", Str " Hello! ")]])]);
     ("DENIED", Obj [("error", Obj [("message", Str "invalid x-api-key")])])].

Definition hello_request : Request :=
  ProxyNotions.post
    (ProxyNotions.proxy_body [ProxyNotions.chat_message "user" "hello"] (Obj [])).

Definition greeting : Proxy.UpstreamCall -> FetchResult :=
  ProxyNotions.answering 200 "GREETING".

(** A session with one exchange behind it. *)
Definition talked_state : Client.State :=
  {| Client.input := "and then?"; Client.sendDisabled := false;
     Client.chat_messages :=
       [{| Client.type := "user"; Client.content := Str "hi" |};
        {| Client.type := "ai"; Client.content := Str "Hello!" |}];
     Client.pendingMessages := []; Client.hasMessages := true;
     Client.quota_used := 1; Client.quota_messagesLeft := 4;
     Client.api_status := "online"; Client.ui := []; Client.sent := [] |}.

Definition blank_page (s : Client.State) : Status.Page :=
  {| Status.session := s; Status.lastCheck := None;
     Status.statusDot_className := "status-dot";
     Status.statusText_textContent := "Checking...";
     Status.probes := [] |}.

End MoreNotions.

(* ===================================================================== *)
(** ** Facts about the multi-turn proxy handler                           *)
(* ===================================================================== *)

Module ProxyFacts.
Import JS Http Proxy ProxyNotions.

Section Facts.
Variable host : Host.
Variable upstream : UpstreamCall -> FetchResult.

Lemma catch_block_on_error err calls :
  catch_block err calls = (Return (on_error err), calls).
Proof.
  unfold catch_block, on_error.
  destruct (includes (message err) "401"); [reflexivity|].
  destruct (includes (message err) "429"); [reflexivity|].
  destruct (includes (message err) "400"); reflexivity.
Qed.

Lemma on_error_status err : status (on_error err) = 500%Z.
Proof.
  unfold on_error.
  destruct (includes (message err) "401"); [reflexivity|].
  destruct (includes (message err) "429"); [reflexivity|].
  destruct (includes (message err) "400"); reflexivity.
Qed.

(** A value that can be read once can be read again. *)
Lemma get_total v k x k' : get v k = Return x -> exists y, get v k' = Return y.
Proof.
  destruct v; simpl; try discriminate; eauto.
Qed.

Lemma anthropicPayload_fields cm options p :
  anthropicPayload host cm options = Return p ->
  exists length creativity sys,
    get options "length" = Return length /\
    get options "creativity" = Return creativity /\
    get options "system" = Return sys /\
    max_tokens p = clamp_max_tokens host length /\
    temperature p = to_temperature host creativity /\
    messages p = cm.
Proof.
  unfold anthropicPayload, obind.
  destruct (get options "length") as [l|] eqn:El; [|discriminate].
  destruct (get options "creativity") as [c|] eqn:Ec; [|discriminate].
  destruct (get options "system") as [s|] eqn:Es; [|discriminate].
  destruct (to_primitive (if truthy l then l else Number (Num 1024)));
    [|discriminate].
  destruct (if truthy c then to_primitive c else Return tt); [|discriminate].
  intros H. injection H as <-. simpl. eauto 10.
Qed.

Lemma truthy_nonzero c : ~ (c == 0)%Q -> truthy (Number (Num c)) = true.
Proof.
  intros Hc. simpl. destruct (Qeq_bool c 0) eqn:E; [|reflexivity].
  apply Qeq_bool_iff in E. contradiction.
Qed.

(** C1, amended: the upstream temperature is [to_temperature] of the
    creativity option: 0.7 when the option is absent, and for a non-zero
    number [c] the quotient [c / 100] clamped from above only, to at most 1.
    So 50, 100 and 250 give 0.5, 1 and 1, and -10 gives -0.1 (there is no
    lower clamp). *)
Theorem temperature_from_creativity cm options p v :
  anthropicPayload host cm options = Return p ->
  get options "creativity" = Return v ->
  temperature p = to_temperature host v /\
  (v = Undefined -> temperature p =n= Num (7 # 10)) /\
  (forall c, v = Number (Num c) -> ~ (c == 0)%Q ->
     temperature p =n= Num (Qmin (c / 100) 1)) /\
  to_temperature host (Number (Num 50)) =n= Num (1 # 2) /\
  to_temperature host (Number (Num 100)) =n= Num 1 /\
  to_temperature host (Number (Num 250)) =n= Num 1 /\
  to_temperature host (Number (Num (-10 # 1))) =n= Num (-1 # 10).
Proof.
  intros Hp Hv.
  destruct (anthropicPayload_fields _ _ _ Hp)
    as (l & c & s & _ & Hc & _ & _ & Ht & _).
  rewrite Hv in Hc. injection Hc as <-.
  split; [exact Ht|]. rewrite Ht.
  split; [intros ->; simpl; reflexivity|].
  split.
  - intros q -> Hq. unfold to_temperature.
    rewrite (truthy_nonzero _ Hq). simpl. reflexivity.
  - repeat split; vm_compute; reflexivity.
Qed.

(** For a non-zero number the upstream [max_tokens] is the requested length
    clamped into [1, 4096]; an absent length gives 1024. *)
Lemma max_tokens_from_length cm options p v :
  anthropicPayload host cm options = Return p ->
  get options "length" = Return v ->
  max_tokens p = clamp_max_tokens host v /\
  (v = Undefined -> max_tokens p =n= Num 1024) /\
  (forall n, v = Number (Num n) -> ~ (n == 0)%Q ->
     max_tokens p =n= spec_max_tokens n) /\
  clamp_max_tokens host (Number (Num 5000)) =n= Num 4096 /\
  clamp_max_tokens host (Number (Num 1024)) =n= Num 1024.
Proof.
  intros Hp Hv.
  destruct (anthropicPayload_fields _ _ _ Hp)
    as (l & c & s & Hl & _ & _ & Hm & _ & _).
  rewrite Hv in Hl. injection Hl as <-.
  split; [exact Hm|]. rewrite Hm.
  split; [intros ->; vm_compute; reflexivity|].
  split.
  - intros q -> Hq. unfold clamp_max_tokens.
    rewrite (truthy_nonzero _ Hq). simpl. reflexivity.
  - split; vm_compute; reflexivity.
Qed.

Lemma fetchClaudeResponse_cases ms o key :
  (exists e, fetchClaudeResponse host upstream ms o key [] = (Throw e, [])) \/
  (exists p, fetchClaudeResponse host upstream ms o key []
             = (after_fetch host (upstream (request key p)), [request key p])).
Proof.
  unfold fetchClaudeResponse, bind, lift, throw.
  destruct (claudeMessages host ms) as [[|m0 cm]|e]; [eauto | | eauto].
  destruct (negb (role m0 =? "user")); [eauto|].
  destruct (anthropicPayload host (m0 :: cm) o) as [p|e]; [|eauto].
  right. exists p. unfold fetch, after_fetch. simpl.
  destruct (upstream (request key p)) as [e|st text]; [reflexivity|].
  destruct (negb (ok st)); reflexivity.
Qed.

(** Every run of the handler ends in a response; either no call was made
    and the status is one of the four, or one call was made and the
    response is [finish] of what came back. *)
Lemma handler_cases req env :
  (exists r, handler host upstream req env = (Return r, []) /\
             In (status r) [200; 400; 405; 500]%Z) \/
  (exists key p,
     handler host upstream req env
     = (Return (finish (after_fetch host (upstream (request key p)))),
        [request key p])).
Proof.
  unfold handler, handler_eff.
  destruct (method req =? "OPTIONS");
    [left; eexists; split; [reflexivity|simpl; tauto]|].
  destruct (negb (method req =? "POST"));
    [left; eexists; split; [reflexivity|simpl; tauto]|].
  assert (Herr : forall e, exists r,
            catch_block e [] = (Return r, []) /\
            In (status r) [200; 400; 405; 500]%Z).
  { intros e. exists (on_error e). rewrite catch_block_on_error.
    split; [reflexivity|]. rewrite on_error_status. simpl. tauto. }
  unfold try_catch, try_block, bind, lift, ret.
  destruct (get (body req) "messages") as [ms|e]; [|left; apply Herr].
  destruct (get (body req) "options") as [o|e]; [|left; apply Herr].
  destruct ms as [| | | | |items|];
    try (left; eexists; split; [reflexivity|simpl; tauto]).
  destruct (negb (truthy o));
    [left; eexists; split; [reflexivity|simpl; tauto]|].
  destruct env as [key|];
    [|left; eexists; split; [reflexivity|simpl; tauto]].
  destruct (key =? "");
    [left; eexists; split; [reflexivity|simpl; tauto]|].
  destruct (if (List.length items =? 1)%nat
            then (c <- get (nth 0 items Undefined) "content" ;;
                  Return (is_string c "ping"))%outcome
            else Return false) as [[|]|e];
    [left; eexists; split; [reflexivity|simpl; tauto] | | left; apply Herr].
  destruct (fetchClaudeResponse_cases items o key) as [[e He]|[p Hp]].
  - rewrite He. left. apply Herr.
  - rewrite Hp. right. exists key, p.
    destruct (after_fetch host (upstream (request key p))) as [text|e]; simpl.
    + destruct ((text =? "") || (trim text =? "")); reflexivity.
    + rewrite catch_block_on_error. reflexivity.
Qed.

Lemma finish_status o : In (status (finish o)) [200; 400; 405; 500]%Z.
Proof.
  destruct o as [text|e]; simpl.
  - destruct ((text =? "") || (trim text =? "")); simpl; tauto.
  - rewrite on_error_status. tauto.
Qed.

Lemma finish_failed r :
  upstream_failed r -> status (finish (after_fetch host r)) = 500%Z.
Proof.
  destruct r as [e|st text]; simpl; intros H.
  - apply on_error_status.
  - rewrite H. simpl. apply on_error_status.
Qed.

(** The status of the multi-turn handler: one of the four, and 500 when
    the provider failed. *)
Lemma proxy_status req env :
  exists r calls,
    handler host upstream req env = (Return r, calls) /\
    In (status r) [200; 400; 405; 500]%Z /\
    (forall c, In c calls -> upstream_failed (upstream c) -> status r = 500%Z).
Proof.
  destruct (handler_cases req env) as [(r & Hr & Hs)|(key & p & Hr)].
  - exists r, []. repeat split; trivial. intros c [].
  - eexists _, _. split; [exact Hr|]. split; [apply finish_status|].
    intros c [<-|[]] Hf. apply finish_failed, Hf.
Qed.

(** The probe of lines 41-51: a single entry whose content is "ping" never
    reaches the provider, and is answered by the canned reply once the
    guards before line 41 are passed. *)
Lemma ping_short_circuit req env m :
  get (body req) "messages" = Return (Arr [m]) ->
  get m "content" = Return (Str "ping") ->
  snd (handler host upstream req env) = [] /\
  (forall o key,
     method req = "POST" ->
     get (body req) "options" = Return o -> truthy o = true ->
     env = Some key -> key <> "" ->
     handler host upstream req env
     = (Return (res_json 200 (choices_body "pong")), [])).
Proof.
  intros Hms Hc.
  destruct (get_total _ _ _ "options" Hms) as [o Ho].
  unfold handler, handler_eff, try_catch, try_block, bind, lift, ret.
  rewrite Hms, Ho. simpl. rewrite Hc. simpl.
  split.
  - destruct (method req =? "OPTIONS"); [reflexivity|].
    destruct (negb (method req =? "POST")); [reflexivity|].
    destruct (negb (truthy o)); [reflexivity|].
    destruct env as [key|]; [|reflexivity].
    destruct (key =? ""); reflexivity.
  - intros o' key Hm Ho' Ht -> Hk. injection Ho' as <-.
    rewrite Hm, Ht. simpl.
    destruct (key =? "") eqn:E; [apply String.eqb_eq in E; contradiction|].
    reflexivity.
Qed.

(** C3, amended: a request whose sole message is [{role: "user", content:
    "ping"}] makes no call to the provider, whatever its method, its
    options and the key; sent by POST with options present, to a handler
    whose API key is set and not empty, it is answered with status 200 and
    the body [{choices: [{message: {content: "pong", role:
    "assistant"}}]}]. *)
Theorem ping_yields_pong req env :
  get (body req) "messages" = Return (Arr [ping_message]) ->
  snd (handler host upstream req env) = [] /\
  (forall o key,
     method req = "POST" ->
     get (body req) "options" = Return o -> truthy o = true ->
     env = Some key -> key <> "" ->
     exists r,
       handler host upstream req env = (Return r, []) /\
       status r = 200%Z /\
       json r = Some (choices_body "pong")).
Proof.
  intros Hms.
  destruct (ping_short_circuit req env ping_message Hms eq_refl) as [H1 H2].
  split; [exact H1|].
  intros o key Hm Ho Ht He Hk. eexists. split; [eapply H2; eauto|].
  split; reflexivity.
Qed.

(** C9, amended: the probe does not look at the role. Whatever the single
    entry is, as long as its content is "ping" (role assistant, or no
    role, for which [claudeMessages] would give an assistant-first or an
    empty sequence), the handler makes no call to the provider, and for a
    POST with options present and an API key that is set and not empty it
    gives the canned reply, without the filtering and the user-first
    validation. *)
Theorem ping_ignores_role req env m :
  get (body req) "messages" = Return (Arr [m]) ->
  get m "content" = Return (Str "ping") ->
  (snd (handler host upstream req env) = [] /\
   (forall o key,
      method req = "POST" ->
      get (body req) "options" = Return o -> truthy o = true ->
      env = Some key -> key <> "" ->
      handler host upstream req env
      = (Return (res_json 200 (choices_body "pong")), []))) /\
  claudeMessages host [Obj [("role", Str "assistant"); ("content", Str "ping")]]
    = Return [{| role := "assistant"; content := "ping" |}] /\
  claudeMessages host [Obj [("content", Str "ping")]] = Return [].
Proof.
  intros Hms Hc. split; [|split; reflexivity].
  apply (ping_short_circuit req env m Hms Hc).
Qed.

Lemma not_ping items :
  ping_probe items = false ->
  (if (List.length items =? 1)%nat
   then (c <- get (nth 0 items Undefined) "content" ;;
         Return (is_string c "ping"))%outcome
   else Return false) <> Return true.
Proof.
  unfold ping_probe.
  destruct items as [|m [|m' rest]]; simpl; try discriminate.
  destruct (get m "content") as [c|e]; simpl; [|discriminate].
  intros ->. discriminate.
Qed.

(** C4, amended: a POST request with options present that is not the
    single-entry probe, and whose messages filter to an empty sequence or
    to one that does not start with a user message, is answered with
    status 500 without any call to the provider. *)
Theorem invalid_conversation_rejected req env items o :
  method req = "POST" ->
  get (body req) "messages" = Return (Arr items) ->
  get (body req) "options" = Return o -> truthy o = true ->
  ping_probe items = false ->
  (claudeMessages host items = Return [] \/
   exists m rest, claudeMessages host items = Return (m :: rest) /\
                  role m <> "user") ->
  exists r, handler host upstream req env = (Return r, []) /\
            status r = 500%Z.
Proof.
  intros Hm Hms Ho Ht Hn Hcm.
  unfold handler, handler_eff, try_catch, try_block, bind, lift, ret.
  rewrite Hm, Hms, Ho, Ht. simpl.
  destruct env as [key|]; [|eexists; split; reflexivity].
  destruct (key =? ""); [eexists; split; reflexivity|].
  pose proof (not_ping items Hn) as Hp.
  destruct (if (List.length items =? 1)%nat
            then (c <- get (nth 0 items Undefined) "content" ;;
                  Return (is_string c "ping"))%outcome
            else Return false) as [[|]|e].
  - congruence.
  - assert (Hf : exists e, fetchClaudeResponse host upstream items o key []
                           = (Throw e, [])).
    { unfold fetchClaudeResponse, bind, lift, throw.
      destruct Hcm as [->|(m & rest & -> & Hr)]; [eauto|].
      destruct (role m =? "user") eqn:E;
        [apply String.eqb_eq in E; contradiction|].
      simpl. eauto. }
    destruct Hf as [e ->]. rewrite catch_block_on_error.
    eexists; split; [reflexivity|apply on_error_status].
  - rewrite catch_block_on_error.
    eexists; split; [reflexivity|apply on_error_status].
Qed.

(** C6: when the provider answers a call with an ok status and a body that
    parses as JSON with an empty [content] list, the handler answers 500
    with the error "Server error" and the details "Empty response from
    Claude API"; no exception escapes. *)
Theorem empty_content_is_an_error req env r calls c st text data :
  handler host upstream req env = (r, calls) ->
  In c calls ->
  upstream c = Responded st text -> ok st = true ->
  JSON_parse host text = inr data ->
  get data "content" = Return (Arr []) ->
  r = Return (res_json 500
                (error_details "Server error" "Empty response from Claude API")).
Proof.
  intros Hh Hin Hup Hok Hparse Hcontent.
  destruct (handler_cases req env) as [(r' & Hr & _)|(key & p & Hr)];
    rewrite Hr in Hh; injection Hh as <- <-.
  - destruct Hin.
  - destruct Hin as [<-|[]]. rewrite Hup. unfold after_fetch.
    rewrite Hok. simpl. unfold responseContent.
    rewrite Hparse. simpl. rewrite Hcontent. reflexivity.
Qed.

End Facts.

(** C1, witness: creativity 50 in the options gives temperature 0.5. *)
Lemma temperature_from_creativity_witness :
  anthropicPayload plain_host [] (options_with "creativity" (Number (Num 50)))
    = Return (payload_with (Num 1024) (Num (Qmin (50 / 100) 1))) /\
  get (options_with "creativity" (Number (Num 50))) "creativity"
    = Return (Number (Num 50)) /\
  temperature (payload_with (Num 1024) (Num (Qmin (50 / 100) 1)))
    =n= Num (Qmin (50 / 100) 1).
Proof.
  assert (Hp : anthropicPayload plain_host []
                 (options_with "creativity" (Number (Num 50)))
               = Return (payload_with (Num 1024) (Num (Qmin (50 / 100) 1))))
    by reflexivity.
  assert (Hv : get (options_with "creativity" (Number (Num 50))) "creativity"
               = Return (Number (Num 50))) by reflexivity.
  split; [exact Hp|]. split; [exact Hv|].
  destruct (temperature_from_creativity plain_host _ _ _ _ Hp Hv)
    as (_ & _ & H & _).
  apply (H 50%Q eq_refl). vm_compute. discriminate.
Defined.

(** C1 as worded fails: creativity -10 reaches the provider as temperature
    -0.1, not as 0. *)
Lemma creativity_minus_ten_not_clamped :
  snd (handler plain_host no_network
         (post (proxy_body [chat_message "user" "hello"]
                  (options_with "creativity" (Number (Num (-10 # 1))))))
         (Some "secret"))
  = [request "secret"
       {| model := "claude-sonnet-4-20250514"; max_tokens := Num 1024;
          messages := [{| role := "user"; content := "hello" |}];
          temperature := Num (-10 # 100); system := None |}] /\
  to_temperature plain_host (Number (Num (-10 # 1))) =n= Num (-1 # 10) /\
  spec_temperature (Some (-10 # 1)) =n= Num 0 /\
  ~ (to_temperature plain_host (Number (Num (-10 # 1)))
       =n= spec_temperature (Some (-10 # 1))).
Proof.
  split; [reflexivity|]. split; [vm_compute; reflexivity|].
  split; [vm_compute; reflexivity|].
  vm_compute. discriminate.
Qed.

(** C2 at the failing input: a requested length of 0 reaches the provider
    as 1024, where the clamp into [1, 4096] gives 1. *)
Theorem max_tokens_of_zero :
  snd (handler plain_host no_network
         (post (proxy_body [chat_message "user" "hello"]
                  (options_with "length" (Number (Num 0)))))
         (Some "secret"))
  = [request "secret"
       {| model := "claude-sonnet-4-20250514"; max_tokens := Num 1024;
          messages := [{| role := "user"; content := "hello" |}];
          temperature := Num (7 # 10); system := None |}] /\
  clamp_max_tokens plain_host (Number (Num 0)) =n= Num 1024 /\
  spec_max_tokens 0 =n= Num 1 /\
  ~ (clamp_max_tokens plain_host (Number (Num 0)) =n= spec_max_tokens 0).
Proof.
  split; [reflexivity|]. split; [vm_compute; reflexivity|].
  split; [vm_compute; reflexivity|].
  vm_compute. discriminate.
Qed.

(** Creativity 0 is falsy at line 126 and takes the default 0.7. *)
Lemma creativity_zero_takes_default :
  to_temperature plain_host (Number (Num 0)) =n= Num (7 # 10).
Proof.
  vm_compute. reflexivity.
Qed.

(** C3, witness: the probe the client sends, to a configured handler. *)
Lemma ping_yields_pong_witness :
  get (body (post (proxy_body [ping_message] (Obj [("length", Number (Num 10))]))))
      "messages" = Return (Arr [ping_message]) /\
  exists r,
    handler plain_host no_network
      (post (proxy_body [ping_message] (Obj [("length", Number (Num 10))])))
      (Some "secret") = (Return r, []) /\
    status r = 200%Z /\ json r = Some (choices_body "pong").
Proof.
  split; [reflexivity|].
  apply (proj2 (ping_yields_pong plain_host no_network
                  (post (proxy_body [ping_message]
                           (Obj [("length", Number (Num 10))])))
                  (Some "secret") eq_refl)
               (Obj [("length", Number (Num 10))]) "secret");
    try reflexivity.
  discriminate.
Defined.

(** C9, witness: a single assistant entry whose content is "ping". *)
Lemma ping_ignores_role_witness :
  handler plain_host no_network
    (post (proxy_body [chat_message "assistant" "ping"] (Obj [])))
    (Some "secret")
  = (Return (res_json 200 (choices_body "pong")), []).
Proof.
  apply (proj2 (proj1 (ping_ignores_role plain_host no_network
                  (post (proxy_body [chat_message "assistant" "ping"] (Obj [])))
                  (Some "secret") (chat_message "assistant" "ping")
                  eq_refl eq_refl))
               (Obj []) "secret");
    try reflexivity.
  discriminate.
Defined.

(** C4, witness: a conversation that starts with an assistant message. *)
Lemma invalid_conversation_rejected_witness :
  ping_probe [chat_message "assistant" "hello"] = false /\
  claudeMessages plain_host [chat_message "assistant" "hello"]
    = Return [{| role := "assistant"; content := "hello" |}] /\
  exists r,
    handler plain_host no_network
      (post (proxy_body [chat_message "assistant" "hello"] (Obj [])))
      (Some "secret") = (Return r, []) /\
    status r = 500%Z.
Proof.
  split; [reflexivity|]. split; [reflexivity|].
  apply (invalid_conversation_rejected plain_host no_network
           (post (proxy_body [chat_message "assistant" "hello"] (Obj [])))
           (Some "secret") [chat_message "assistant" "hello"] (Obj []));
    try reflexivity.
  right. eexists _, _. split; [reflexivity|]. discriminate.
Defined.

(** C4 as worded fails: a single assistant message whose content is "ping"
    filters to a sequence that starts with an assistant message, and is
    answered 200 with the canned reply, not rejected with 500. *)
Lemma assistant_ping_not_rejected :
  claudeMessages plain_host [chat_message "assistant" "ping"]
    = Return [{| role := "assistant"; content := "ping" |}] /\
  handler plain_host no_network
    (post (proxy_body [chat_message "assistant" "ping"] (Obj [])))
    (Some "secret")
  = (Return (res_json 200 (choices_body "pong")), []) /\
  ~ (exists r,
       handler plain_host no_network
         (post (proxy_body [chat_message "assistant" "ping"] (Obj [])))
         (Some "secret") = (Return r, []) /\
       status r = 500%Z).
Proof.
  split; [reflexivity|]. split; [reflexivity|].
  intros (r & Hr & Hs). vm_compute in Hr. injection Hr as <-.
  discriminate.
Qed.

(** C6, witness: the provider answers 200 with [{content: []}]. *)
Lemma empty_content_is_an_error_witness :
  In hello_call
     (snd (handler empty_content_host (answering 200 "EMPTY")
             (post (proxy_body [chat_message "user" "hello"] (Obj [])))
             (Some "secret"))) /\
  answering 200 "EMPTY" hello_call = Responded 200 "EMPTY" /\
  ok 200 = true /\
  JSON_parse empty_content_host "EMPTY" = inr (Obj [("content", Arr [])]) /\
  get (Obj [("content", Arr [])]) "content" = Return (Arr []) /\
  fst (handler empty_content_host (answering 200 "EMPTY")
         (post (proxy_body [chat_message "user" "hello"] (Obj [])))
         (Some "secret"))
  = Return (res_json 500
      (error_details "Server error" "Empty response from Claude API")).
Proof.
  assert (Hin : In hello_call
     (snd (handler empty_content_host (answering 200 "EMPTY")
             (post (proxy_body [chat_message "user" "hello"] (Obj [])))
             (Some "secret")))) by (left; reflexivity).
  split; [exact Hin|]. repeat (split; [reflexivity|]).
  apply (empty_content_is_an_error empty_content_host (answering 200 "EMPTY")
           (post (proxy_body [chat_message "user" "hello"] (Obj [])))
           (Some "secret") _ _ hello_call 200%Z "EMPTY"
           (Obj [("content", Arr [])]) (surjective_pairing _) Hin);
    reflexivity.
Defined.

(** C3 as worded fails: the guards of lines 12, 24 and 31 come before the
    probe of line 42. The ping of the client is answered 500 when the API
    key is not set, 400 when the body has no options, and 405 when the
    method is GET; none of these is the 200 of the canned reply. *)
Lemma user_ping_meets_the_guards :
  handler plain_host no_network
    (post (proxy_body [ping_message] (Obj [("length", Number (Num 10))])))
    None
  = (Return (res_json 500 not_configured), []) /\
  handler plain_host no_network
    (post (Obj [("messages", Arr [ping_message])])) (Some "secret")
  = (Return (res_json 400 (error_body "Missing options")), []) /\
  handler plain_host no_network
    {| method := "GET";
       body := proxy_body [ping_message] (Obj [("length", Number (Num 10))]) |}
    (Some "secret")
  = (Return (res_json 405 (error_body "Method not allowed")), []) /\
  status (res_json 500 not_configured) <> 200%Z /\
  status (res_json 400 (error_body "Missing options")) <> 200%Z /\
  status (res_json 405 (error_body "Method not allowed")) <> 200%Z.
Proof.
  repeat split; try reflexivity; discriminate.
Qed.

(** C9 as worded fails: a single assistant entry whose content is "ping"
    is answered 500 when the API key is empty, 400 when the body has no
    options, and 405 when the method is GET, not with the canned reply. *)
Lemma assistant_ping_meets_the_guards :
  handler plain_host no_network
    (post (proxy_body [chat_message "assistant" "ping"] (Obj [])))
    (Some "")
  = (Return (res_json 500 not_configured), []) /\
  handler plain_host no_network
    (post (Obj [("messages", Arr [chat_message "assistant" "ping"])]))
    (Some "secret")
  = (Return (res_json 400 (error_body "Missing options")), []) /\
  handler plain_host no_network
    {| method := "GET";
       body := proxy_body [chat_message "assistant" "ping"] (Obj []) |}
    (Some "secret")
  = (Return (res_json 405 (error_body "Method not allowed")), []) /\
  res_json 500 not_configured <> res_json 200 (choices_body "pong") /\
  res_json 400 (error_body "Missing options")
    <> res_json 200 (choices_body "pong") /\
  res_json 405 (error_body "Method not allowed")
    <> res_json 200 (choices_body "pong").
Proof.
  repeat split; try reflexivity; discriminate.
Qed.

End ProxyFacts.

(* ===================================================================== *)
(** ** Facts about the forwarder, and the status codes of both handlers   *)
(* ===================================================================== *)

Module ForwarderFacts.
Import JS Http ProxyNotions ForwarderNotions.

Section Facts.
Variable host : Host.
Variable upstream : Forwarder.UpstreamCall -> FetchResult.

Lemma get_opt_total e key : exists m, get_opt e key = Return m.
Proof.
  destruct e; simpl; eauto.
Qed.

(** Once its guards are passed, the forwarder answers a response of the
    provider that is not ok, and whose body parses to anything but null,
    under the provider's own status. *)
Lemma forwarder_relays_status req env msg key st text data :
  method req = "POST" ->
  get (body req) "message" = Return msg -> truthy msg = true ->
  env = Some key -> key <> "" ->
  upstream (Forwarder.request key msg) = Responded st text ->
  ok st = false ->
  JSON_parse host text = inr data ->
  data <> Null -> data <> Undefined ->
  exists r,
    Forwarder.handler host upstream req env
    = (Return r, [Forwarder.request key msg]) /\
    status r = st.
Proof.
  intros Hm Hmsg Ht -> Hk Hup Hok Hparse Hnull Hundef.
  unfold Forwarder.handler, Forwarder.handler_eff, try_catch,
    Forwarder.try_block, Forwarder.fetch, Forwarder.unset, bind, lift, ret.
  rewrite Hm, Hmsg. simpl. rewrite Ht. simpl.
  destruct (key =? "") eqn:E; [apply String.eqb_eq in E; contradiction|].
  rewrite Hup, Hok. simpl. unfold response_json. rewrite Hparse.
  assert (He : exists e, get data "error" = Return e)
    by (destruct data; simpl; eauto; contradiction).
  destruct He as [e ->].
  destruct (get_opt_total e "message") as [m ->].
  eexists. split; reflexivity.
Qed.

(** Every run of the forwarder: the destructuring of the body throws, or
    the response has one of the four statuses, or it has the status of a
    response of the provider that was not ok. *)
Lemma forwarder_cases req env :
  (exists e, Forwarder.handler host upstream req env = (Throw e, [])) \/
  (exists r calls,
     Forwarder.handler host upstream req env = (Return r, calls) /\
     (documented_status (status r) \/
      exists c text, In c calls /\
                     upstream c = Responded (status r) text /\
                     ok (status r) = false)).
Proof.
  unfold Forwarder.handler, Forwarder.handler_eff, documented_status.
  destruct (method req =? "OPTIONS");
    [right; eexists _, _; split; [reflexivity|left; simpl; tauto]|].
  destruct (negb (method req =? "POST"));
    [right; eexists _, _; split; [reflexivity|left; simpl; tauto]|].
  unfold bind, lift.
  destruct (get (body req) "message") as [msg|e];
    [|left; eexists; reflexivity].
  destruct (negb (truthy msg));
    [right; eexists _, _; split; [reflexivity|left; simpl; tauto]|].
  right.
  unfold try_catch, Forwarder.try_block, Forwarder.catch_block,
    Forwarder.fetch, bind, lift, ret.
  destruct (Forwarder.unset env);
    [eexists _, _; split; [reflexivity|left; simpl; tauto]|].
  set (c := Forwarder.request _ msg).
  destruct (upstream c) as [e|st text] eqn:Hup;
    [eexists _, _; split; [reflexivity|left; simpl; tauto]|].
  simpl.
  destruct (ok st) eqn:Hok; simpl.
  - destruct (response_json host text) as [data|e];
      [|eexists _, _; split; [reflexivity|left; simpl; tauto]].
    destruct (get data "content") as [ct|e];
      [|eexists _, _; split; [reflexivity|left; simpl; tauto]].
    destruct (first ct) as [c0|e];
      [|eexists _, _; split; [reflexivity|left; simpl; tauto]].
    destruct (get c0 "text") as [t|e];
      eexists _, _; (split; [reflexivity|left; simpl; tauto]).
  - destruct (response_json host text) as [data|e];
      [|eexists _, _; split; [reflexivity|left; simpl; tauto]].
    destruct (get data "error") as [er|e];
      [|eexists _, _; split; [reflexivity|left; simpl; tauto]].
    destruct (get_opt er "message") as [m|e];
      [|eexists _, _; split; [reflexivity|left; simpl; tauto]].
    eexists _, _. split; [reflexivity|]. right.
    exists c, text. simpl. auto.
Qed.

(** C5, amended: the multi-turn handler always answers with one of 200,
    400, 405 and 500, and with 500 whenever the provider failed. The
    forwarder of src/api/chat.js answers with one of those four or with
    the status of the provider's response that was not ok, unless the
    destructuring of its body throws; it does relay that status when the
    body of the provider's response parses to anything but null. *)
Theorem handler_status_codes
        (proxy_upstream : Proxy.UpstreamCall -> FetchResult) req penv env :
  (exists r calls,
     Proxy.handler host proxy_upstream req penv = (Return r, calls) /\
     documented_status (status r) /\
     (forall c, In c calls -> upstream_failed (proxy_upstream c) ->
                status r = 500%Z)) /\
  ((exists e, Forwarder.handler host upstream req env = (Throw e, [])) \/
   (exists r calls,
      Forwarder.handler host upstream req env = (Return r, calls) /\
      (documented_status (status r) \/
       exists c text, In c calls /\
                      upstream c = Responded (status r) text /\
                      ok (status r) = false))) /\
  (forall msg key st text data,
     method req = "POST" ->
     get (body req) "message" = Return msg -> truthy msg = true ->
     env = Some key -> key <> "" ->
     upstream (Forwarder.request key msg) = Responded st text ->
     ok st = false ->
     JSON_parse host text = inr data ->
     data <> Null -> data <> Undefined ->
     exists r,
       Forwarder.handler host upstream req env
       = (Return r, [Forwarder.request key msg]) /\
       status r = st).
Proof.
  split; [apply ProxyFacts.proxy_status|].
  split; [apply forwarder_cases|].
  intros. eapply forwarder_relays_status; eauto.
Qed.

End Facts.

(** C5, witness: the provider answers the forwarder with status 429. *)
Lemma handler_status_codes_witness :
  exists r,
    Forwarder.handler rate_host rate_limited (forward_post (Str "hi"))
      (Some "secret")
    = (Return r, [Forwarder.request "secret" (Str "hi")]) /\
    status r = 429%Z.
Proof.
  apply (proj2 (proj2 (handler_status_codes rate_host rate_limited
                         no_network (forward_post (Str "hi")) (Some "secret")
                         (Some "secret")))
               (Str "hi") "secret" 429%Z "RATE"
               (Obj [("error", Obj [("message", Str "Too many requests")])]));
    try reflexivity; discriminate.
Defined.

(** C5 as worded fails: the forwarder surfaces a rate-limited provider as
    status 429, which is none of 200, 400, 405 and 500. *)
Lemma forwarder_surfaces_429 :
  Forwarder.handler rate_host rate_limited (forward_post (Str "hi"))
    (Some "secret")
  = (Return (Forwarder.res_json 429
       (Obj [("error", Str "Failed to process request");
             ("details", Str "Too many requests")])),
     [Forwarder.request "secret" (Str "hi")]) /\
  ok 429 = false /\
  ~ documented_status 429.
Proof.
  split; [reflexivity|]. split; [reflexivity|].
  unfold documented_status. simpl.
  intros [H|[H|[H|[H|[]]]]]; discriminate.
Qed.

End ForwarderFacts.

(* ===================================================================== *)
(** ** Facts about the client                                             *)
(* ===================================================================== *)

Module ClientFacts.
Import JS Http Client ClientNotions ProxyNotions.

Section Facts.
Variable host : Host.
Variable proxy : ProxyCall -> FetchResult.

(** C7: with a send pending, or with no quota left, [sendMessage] returns
    at once: the conversation, the pending list and the counters are as
    before, and no request is issued. *)
Theorem blocked_send_is_noop s :
  pendingMessages s <> [] \/ (quota_messagesLeft s <= 0)%Z ->
  exists s',
    sendMessage host proxy s = (Return tt, s') /\
    chat_messages s' = chat_messages s /\
    List.length (chat_messages s') = List.length (chat_messages s) /\
    sent s' = sent s /\
    pendingMessages s' = pendingMessages s /\
    quota_used s' = quota_used s /\
    quota_messagesLeft s' = quota_messagesLeft s.
Proof.
  intros H. unfold sendMessage, bind, read, ret, emit, modify.
  destruct ((trim (input s) =? "")
            || (0 <? List.length (pendingMessages s))%nat) eqn:E.
  - exists s. repeat split; reflexivity.
  - apply orb_false_iff in E. destruct E as [_ E].
    destruct H as [H|H].
    + destruct (pendingMessages s); [contradiction|discriminate].
    + apply Z.leb_le in H. rewrite H.
      eexists. split; [reflexivity|]. repeat split; reflexivity.
Qed.

(** The [catch]: the apology is appended, the failure is shown with the
    message of the error, and the counters are not touched. *)
Lemma catch_block_effect message e s :
  exists s',
    catch_block message e s = (Return tt, s') /\
    chat_messages s' = (chat_messages s ++ [apology_turn])%list /\
    ui s' = (ui s ++ [removeTypingIndicator;
                      showToast ("Failed to generate response: " ++ JS.message e)
                                "error"])%list /\
    pendingMessages s'
    = filter (fun msg => negb (msg =? message)) (pendingMessages s) /\
    quota_used s' = quota_used s /\
    quota_messagesLeft s' = quota_messagesLeft s /\
    sent s' = sent s.
Proof.
  eexists. split; [reflexivity|]. simpl.
  rewrite <- app_assoc. repeat split; reflexivity.
Qed.

(** The [try]: it throws before anything but the request log has changed,
    or it returns with one message counted. *)
Lemma try_block_cases message ms o s :
  (exists e, try_block host proxy message ms o s
             = (Throw e, set_sent (sent s ++ [request ms o]) s)) \/
  (exists s', try_block host proxy message ms o s = (Return tt, s') /\
              quota_used s' = (quota_used s + 1)%Z /\
              quota_messagesLeft s' = (quota_messagesLeft s - 1)%Z).
Proof.
  unfold try_block, bind, lift, throw, fetch.
  destruct (proxy (request ms o)) as [e|st text]; [left; eauto|].
  destruct (negb (ok st)); [left; eauto|].
  destruct (response_json host text) as [data|e]; [|left; eauto].
  destruct (get data "choices") as [choices|e]; [|left; eauto].
  destruct (first choices) as [c0|e]; [|left; eauto].
  destruct (get c0 "message") as [m|e]; [|left; eauto].
  destruct (get m "content") as [ai|e]; [|left; eauto].
  right. eexists. split; [reflexivity|]. split; reflexivity.
Qed.

Lemma try_block_failure message ms o s msg :
  send_failure host (proxy (request ms o)) msg ->
  exists e, try_block host proxy message ms o s
            = (Throw e, set_sent (sent s ++ [request ms o]) s) /\
            JS.message e = msg.
Proof.
  unfold try_block, bind, lift, throw, fetch.
  inversion 1 as [e He | st text Hok He | st text m Hok Hparse He]; subst.
  - eauto.
  - rewrite Hok. simpl. eauto.
  - rewrite Hok. simpl. unfold response_json. rewrite Hparse. eauto.
Qed.

(** Past the guards, [sendMessage] prepares the page, appends the user
    turn, marks the message pending, and runs the [try] with its [catch]. *)
Lemma sendMessage_attempt s :
  (trim (input s) =? "") || (0 <? List.length (pendingMessages s))%nat = false ->
  (quota_messagesLeft s <=? 0)%Z = false ->
  negb (api_status s =? "online") = false ->
  exists s1,
    sendMessage host proxy s
    = try_catch (try_block host proxy (trim (input s))
                   (request_messages s1 (trim (input s))) default_options)
                (catch_block (trim (input s))) s1 /\
    request (request_messages s1 (trim (input s))) default_options
    = issued_call s /\
    chat_messages s1 = (chat_messages s ++ [user_turn s])%list /\
    pendingMessages s1 = (pendingMessages s ++ [trim (input s)])%list /\
    quota_used s1 = quota_used s /\
    quota_messagesLeft s1 = quota_messagesLeft s /\
    sent s1 = sent s.
Proof.
  intros H1 H2 H3.
  unfold sendMessage, bind at 1, read at 1. rewrite H1, H2, H3.
  cbn -[try_block catch_block try_catch request_messages trim].
  destruct (hasMessages s) eqn:Hh;
    (eexists; split; [reflexivity|]; repeat split; reflexivity).
Qed.

(** C8: when a send that passed the guards fails (the [fetch] is rejected,
    the status is not ok, or the body is not JSON), the conversation gains
    the user turn and then the fixed apology turn, the failure is shown
    with the message of the error, and both quota counters are as before. *)
Theorem failed_send_apologises s msg :
  may_send s ->
  send_failure host (proxy (issued_call s)) msg ->
  exists s' shown,
    sendMessage host proxy s = (Return tt, s') /\
    chat_messages s' = (chat_messages s ++ [user_turn s; apology_turn])%list /\
    ui s' = (shown ++ [showToast ("Failed to generate response: " ++ msg)
                                 "error"])%list /\
    sent s' = (sent s ++ [issued_call s])%list /\
    pendingMessages s' = [] /\
    quota_used s' = quota_used s /\
    quota_messagesLeft s' = quota_messagesLeft s.
Proof.
  intros (Hin & Hp & Hq & Ho) Hf.
  destruct (sendMessage_attempt s) as (s1 & -> & Hc & Hm & Hp1 & Hu & Hl & Hs).
  - rewrite Hp. apply orb_false_iff. split; [|reflexivity].
    apply String.eqb_neq, Hin.
  - apply Z.leb_gt, Hq.
  - rewrite Ho. reflexivity.
  - rewrite <- Hc in Hf.
    destruct (try_block_failure (trim (input s)) _ _ s1 _ Hf) as (e & He & <-).
    unfold try_catch. rewrite He.
    destruct (catch_block_effect (trim (input s)) e
                (set_sent (sent s1 ++ [request
                   (request_messages s1 (trim (input s))) default_options]) s1))
      as (s' & -> & Hm' & Hui & Hp' & Hu' & Hl' & Hs').
    exists s'. eexists. split; [reflexivity|].
    simpl in *. rewrite Hm', Hm, Hui, Hp', Hp1, Hp, Hu', Hl', Hs', Hs, Hc.
    simpl. rewrite String.eqb_refl. simpl.
    rewrite <- app_assoc. simpl.
    repeat split; try assumption.
    exact (app_assoc (ui s1) [removeTypingIndicator] [_]).
Qed.

(** C10: every invocation of [sendMessage] runs to its end and keeps the
    sum of [quota.used] and [quota.messagesLeft]: a send that returns at
    the guards or fails leaves both as they were, a send that succeeds
    adds one to the first and takes one from the second. *)
Theorem quota_sum_preserved s :
  exists s',
    sendMessage host proxy s = (Return tt, s') /\
    (quota_used s' + quota_messagesLeft s'
     = quota_used s + quota_messagesLeft s)%Z /\
    ((quota_used s' = quota_used s /\
      quota_messagesLeft s' = quota_messagesLeft s) \/
     (quota_used s' = quota_used s + 1 /\
      quota_messagesLeft s' = quota_messagesLeft s - 1)%Z).
Proof.
  destruct ((trim (input s) =? "")
            || (0 <? List.length (pendingMessages s))%nat) eqn:H1;
    [|destruct (quota_messagesLeft s <=? 0)%Z eqn:H2;
      [|destruct (negb (api_status s =? "online")) eqn:H3]].
  1-3: unfold sendMessage, bind, read, ret, emit, modify;
       rewrite H1; try rewrite H2; try rewrite H3;
       eexists; split; [reflexivity|]; simpl; split; [lia|left; auto].
  destruct (sendMessage_attempt s H1 H2 H3)
    as (s1 & -> & _ & _ & _ & Hu & Hl & _).
  unfold try_catch.
  destruct (try_block_cases (trim (input s))
              (request_messages s1 (trim (input s))) default_options s1)
    as [(e & ->)|(s' & -> & Hu' & Hl')].
  - destruct (catch_block_effect (trim (input s)) e
                (set_sent (sent s1 ++ [request
                   (request_messages s1 (trim (input s))) default_options]) s1))
      as (s' & -> & _ & _ & _ & Hu' & Hl' & _).
    exists s'. split; [reflexivity|]. simpl in *. split; [lia|left; lia].
  - exists s'. split; [reflexivity|]. split; [lia|right; lia].
Qed.

End Facts.

(** C7, witness: a send while an earlier message is pending. *)
Lemma blocked_send_is_noop_witness :
  (pendingMessages (fresh_state "hello" ["earlier"] 5) <> [] \/
   (quota_messagesLeft (fresh_state "hello" ["earlier"] 5) <= 0)%Z) /\
  exists s',
    sendMessage plain_host unreachable_proxy (fresh_state "hello" ["earlier"] 5)
    = (Return tt, s') /\
    chat_messages s' = chat_messages (fresh_state "hello" ["earlier"] 5) /\
    List.length (chat_messages s')
    = List.length (chat_messages (fresh_state "hello" ["earlier"] 5)) /\
    sent s' = sent (fresh_state "hello" ["earlier"] 5) /\
    pendingMessages s' = pendingMessages (fresh_state "hello" ["earlier"] 5) /\
    quota_used s' = quota_used (fresh_state "hello" ["earlier"] 5) /\
    quota_messagesLeft s'
    = quota_messagesLeft (fresh_state "hello" ["earlier"] 5).
Proof.
  assert (H : pendingMessages (fresh_state "hello" ["earlier"] 5) <> [] \/
              (quota_messagesLeft (fresh_state "hello" ["earlier"] 5) <= 0)%Z)
    by (left; discriminate).
  split; [exact H|].
  exact (blocked_send_is_noop plain_host unreachable_proxy
           (fresh_state "hello" ["earlier"] 5) H).
Defined.

(** C8, witness: a send whose [fetch] is rejected. *)
Lemma failed_send_apologises_witness :
  may_send (fresh_state "hello" [] 5) /\
  send_failure plain_host
    (unreachable_proxy (issued_call (fresh_state "hello" [] 5)))
    "Failed to fetch" /\
  exists s' shown,
    sendMessage plain_host unreachable_proxy (fresh_state "hello" [] 5)
    = (Return tt, s') /\
    chat_messages s'
    = (chat_messages (fresh_state "hello" [] 5)
       ++ [user_turn (fresh_state "hello" [] 5); apology_turn])%list /\
    ui s' = (shown ++ [showToast ("Failed to generate response: "
                                  ++ "Failed to fetch") "error"])%list /\
    sent s' = (sent (fresh_state "hello" [] 5)
               ++ [issued_call (fresh_state "hello" [] 5)])%list /\
    pendingMessages s' = [] /\
    quota_used s' = quota_used (fresh_state "hello" [] 5) /\
    quota_messagesLeft s' = quota_messagesLeft (fresh_state "hello" [] 5).
Proof.
  assert (Hs : may_send (fresh_state "hello" [] 5)).
  { unfold may_send. simpl. repeat split; try reflexivity.
    vm_compute. discriminate. }
  assert (Hf : send_failure plain_host
                 (unreachable_proxy (issued_call (fresh_state "hello" [] 5)))
                 "Failed to fetch")
    by exact (network_error plain_host (TypeError "Failed to fetch")).
  split; [exact Hs|]. split; [exact Hf|].
  exact (failed_send_apologises plain_host unreachable_proxy
           (fresh_state "hello" [] 5) "Failed to fetch" Hs Hf).
Defined.

End ClientFacts.

(* ===================================================================== *)
(** ** Further facts about the multi-turn proxy handler                   *)
(* ===================================================================== *)

Module ProxyMore.
Import JS Http Proxy ProxyNotions MoreNotions.

Lemma trimEnd_idem s : trimEnd (trimEnd s) = trimEnd s.
Proof.
  induction s as [|c r IH]; [reflexivity|].
  simpl. destruct (trimEnd r) as [|d r'] eqn:E.
  - destruct (is_space c) eqn:Ec; simpl; [reflexivity|].
    rewrite Ec. reflexivity.
  - change (trimEnd (String c (String d r'))) with
      (match trimEnd (String d r') with
       | EmptyString => if is_space c then EmptyString else String c EmptyString
       | String a b => String c (String a b)
       end).
    rewrite IH. reflexivity.
Qed.

Lemma trimStart_starts_clean s : starts_clean (trimStart s).
Proof.
  induction s as [|c r IH]; simpl; [exact I|].
  destruct (is_space c) eqn:E; [exact IH|exact E].
Qed.

Lemma trimStart_fixed s : starts_clean s -> trimStart s = s.
Proof.
  destruct s as [|c r]; simpl; [reflexivity|]. intros ->. reflexivity.
Qed.

Lemma trimEnd_starts_clean s : starts_clean s -> starts_clean (trimEnd s).
Proof.
  destruct s as [|c r]; simpl; [trivial|]. intros H.
  destruct (trimEnd r); [rewrite H|]; exact H.
Qed.

(** Trimming twice is trimming once. *)
Lemma trim_idem s : trim (trim s) = trim s.
Proof.
  unfold trim.
  rewrite (trimStart_fixed (trimEnd (trimStart s))).
  - apply trimEnd_idem.
  - apply trimEnd_starts_clean, trimStart_starts_clean.
Qed.

Section Facts.
Variable host : Host.
Variable upstream : UpstreamCall -> FetchResult.

Lemma map_claude_shape ms out :
  map_claude host ms = Return out ->
  Forall (fun m => (role m = "user" \/ role m = "assistant") /\
                   trim (content m) = content m) out.
Proof.
  revert out. induction ms as [|msg rest IH]; simpl; intros out H.
  - injection H as <-. constructor.
  - unfold obind in H.
    destruct (get msg "role") as [r|]; [|discriminate].
    destruct (get msg "content") as [c|]; [|discriminate].
    destruct (call_toString host c) as [t|]; [|discriminate].
    destruct (map_claude host rest) as [rest'|]; [|discriminate].
    injection H as <-. constructor; [|apply IH; reflexivity].
    simpl. split; [|apply trim_idem].
    destruct (is_string r "assistant"); auto.
Qed.

(** Whatever [claudeMessages] returns is a list of clean messages: each
    role is "user" or "assistant", each content is not empty and is
    trimmed. *)
Lemma claudeMessages_clean ms cm :
  claudeMessages host ms = Return cm -> Forall clean cm.
Proof.
  unfold claudeMessages, obind.
  destruct (filter_valid ms) as [valid|]; [|discriminate].
  destruct (map_claude host valid) as [mapped|] eqn:E; [|discriminate].
  intros H. injection H as <-.
  apply map_claude_shape in E.
  apply Forall_forall. intros m Hin. apply filter_In in Hin as [Hin Hne].
  rewrite Forall_forall in E. destruct (E m Hin) as [Hr Ht].
  repeat split; trivial.
  unfold nonempty in Hne. intros H0. rewrite H0 in Hne. discriminate.
Qed.

Lemma filter_valid_turns ts :
  filter_valid (map turn_object ts) = Return (map turn_object (filter kept ts)).
Proof.
  induction ts as [|[r c] rest IH]; [reflexivity|].
  simpl map. simpl filter_valid. unfold obind. rewrite IH.
  simpl filter.
  change (kept (r, c)) with (negb (r =? "") && negb (c =? "")).
  destruct (r =? ""); simpl; [reflexivity|].
  destruct (c =? ""); reflexivity.
Qed.

Lemma map_claude_turns ts :
  (forall t, In t ts -> snd t <> "") ->
  map_claude host (map turn_object ts) = Return (map coerce ts).
Proof.
  induction ts as [|[r c] rest IH]; intros H; [reflexivity|].
  simpl map. simpl map_claude. unfold obind.
  rewrite IH by (intros t Ht; apply H; right; exact Ht).
  reflexivity.
Qed.

Lemma claudeMessages_text_turns ts :
  claudeMessages host (map turn_object ts)
  = Return (filter nonempty (map coerce (filter kept ts))).
Proof.
  unfold claudeMessages. rewrite filter_valid_turns. simpl.
  rewrite map_claude_turns; [reflexivity|].
  intros [r c] Hin. apply filter_In in Hin as [_ Hk].
  unfold kept in Hk. simpl in *. apply andb_prop in Hk as [_ Hk].
  intros ->. discriminate.
Qed.

(** X24: on a conversation of text turns [claudeMessages] does not throw,
    and is this pipeline: drop the turns with an empty role or content, map
    every role but "assistant" to "user" and trim the content, drop the
    turns whose content was blank; the order of the rest is kept, and
    nothing is added. *)
Theorem claudeMessages_on_turns ts :
  claudeMessages host (map turn_object ts)
  = Return (filter nonempty (map coerce (filter kept ts))) /\
  (List.length (filter nonempty (map coerce (filter kept ts)))
   <= List.length ts)%nat.
Proof.
  split; [apply claudeMessages_text_turns|].
  eapply Nat.le_trans; [apply filter_length_le|].
  rewrite length_map. apply filter_length_le.
Qed.

Lemma fetchClaudeResponse_call ms o key out calls c :
  fetchClaudeResponse host upstream ms o key [] = (out, calls) ->
  In c calls ->
  exists m0 rest p,
    claudeMessages host ms = Return (m0 :: rest) /\
    role m0 = "user" /\
    anthropicPayload host (m0 :: rest) o = Return p /\
    c = request key p /\
    calls = [c] /\
    out = after_fetch host (upstream c).
Proof.
  unfold fetchClaudeResponse, bind, lift, throw.
  destruct (claudeMessages host ms) as [[|m0 rest]|e] eqn:Ecm;
    try (intros H; injection H as <- <-; intros []).
  destruct (role m0 =? "user") eqn:Er; simpl;
    [|intros H; injection H as <- <-; intros []].
  apply String.eqb_eq in Er.
  destruct (anthropicPayload host (m0 :: rest) o) as [p|e] eqn:Ep;
    [|intros H; injection H as <- <-; intros []].
  unfold fetch, after_fetch. simpl.
  intros H Hin. exists m0, rest, p.
  destruct (upstream (request key p)) as [e|st text] eqn:Hup.
  - injection H as <- <-. destruct Hin as [<-|[]].
    rewrite Hup. repeat split; trivial.
  - destruct (negb (ok st)) eqn:Hok;
      injection H as <- <-; destruct Hin as [<-|[]];
      rewrite Hup, Hok; repeat split; trivial.
Qed.

Lemma ping_check_false items :
  (if (List.length items =? 1)%nat
   then (c <- get (nth 0 items Undefined) "content" ;;
         Return (is_string c "ping"))%outcome
   else Return false) = Return false ->
  ping_probe items = false.
Proof.
  unfold ping_probe. destruct items as [|m [|m' rest]]; simpl; trivial.
  destruct (get m "content") as [c|e]; simpl; [|trivial].
  intros H. injection H as ->. reflexivity.
Qed.

(** Where a call to the provider comes from: a POST whose body holds an
    array of messages and options, a configured key, messages that are not
    the probe and that [claudeMessages] accepts; the call is the only one,
    and the response is [finish] of what came back. *)
Lemma handler_call req env out calls c :
  handler host upstream req env = (out, calls) ->
  In c calls ->
  method req = "POST" /\
  exists items o key m0 rest p,
    get (body req) "messages" = Return (Arr items) /\
    get (body req) "options" = Return o /\ truthy o = true /\
    env = Some key /\ key <> "" /\
    ping_probe items = false /\
    claudeMessages host items = Return (m0 :: rest) /\
    role m0 = "user" /\
    anthropicPayload host (m0 :: rest) o = Return p /\
    c = request key p /\
    calls = [c] /\
    out = Return (finish (after_fetch host (upstream c))).
Proof.
  unfold handler, handler_eff.
  destruct (method req =? "OPTIONS");
    [intros H; injection H as <- <-; intros []|].
  destruct (method req =? "POST") eqn:Em; simpl;
    [|intros H; injection H as <- <-; intros []].
  apply String.eqb_eq in Em.
  unfold try_catch, try_block, bind, lift, ret.
  destruct (get (body req) "messages") as [ms|e];
    [|rewrite ProxyFacts.catch_block_on_error;
      intros H; injection H as <- <-; intros []].
  destruct (get (body req) "options") as [o|e];
    [|rewrite ProxyFacts.catch_block_on_error;
      intros H; injection H as <- <-; intros []].
  destruct ms as [| | | | |items|];
    try (intros H; injection H as <- <-; intros []).
  destruct (truthy o) eqn:Ht; simpl;
    [|intros H; injection H as <- <-; intros []].
  destruct env as [key|]; [|intros H; injection H as <- <-; intros []].
  destruct (key =? "") eqn:Ek; [intros H; injection H as <- <-; intros []|].
  apply String.eqb_neq in Ek.
  destruct (if (List.length items =? 1)%nat
            then (c <- get (nth 0 items Undefined) "content" ;;
                  Return (is_string c "ping"))%outcome
            else Return false) as [[|]|e] eqn:Ep;
    [intros H; injection H as <- <-; intros []
    | |rewrite ProxyFacts.catch_block_on_error;
       intros H; injection H as <- <-; intros []].
  apply ping_check_false in Ep.
  destruct (fetchClaudeResponse host upstream items o key [])
    as [res calls'] eqn:Ef.
  intros H Hin.
  assert (Hc : calls = calls').
  { destruct res; [destruct ((a =? "") || (trim a =? ""))|
                   rewrite ProxyFacts.catch_block_on_error in H];
      injection H as _ <-; reflexivity. }
  subst calls'.
  destruct (fetchClaudeResponse_call _ _ _ _ _ _ Ef Hin)
    as (m0 & rest & p & Hcm & Hr & Hp & -> & -> & ->).
  split; [exact Em|].
  exists items, o, key, m0, rest, p.
  repeat split; trivial.
  destruct (after_fetch host (upstream (request key p))) as [text|e]; simpl.
  - destruct ((text =? "") || (trim text =? ""));
      injection H as <-; reflexivity.
  - rewrite ProxyFacts.catch_block_on_error in H.
    injection H as <-. reflexivity.
Qed.

(** X1: the handler calls the provider at most once, and only for a POST
    with a configured API key; the call goes to the messages endpoint with
    that key, the fixed version header and the fixed model. *)
Theorem upstream_call_is_guarded req env out calls c :
  handler host upstream req env = (out, calls) ->
  In c calls ->
  calls = [c] /\
  method req = "POST" /\
  env = Some (x_api_key c) /\ x_api_key c <> "" /\
  url c = "https://api.anthropic.com/v1/messages" /\
  anthropic_version c = "2023-06-01" /\
  model (payload c) = "claude-sonnet-4-20250514".
Proof.
  intros Hh Hin.
  destruct (handler_call _ _ _ _ _ Hh Hin)
    as (Hm & items & o & key & m0 & rest & p & _ & _ & _ & He & Hk & _
        & _ & _ & Hp & -> & Hc & _).
  unfold anthropicPayload, obind in Hp.
  destruct (get o "length") as [l|]; [|discriminate].
  destruct (get o "creativity") as [cr|]; [|discriminate].
  destruct (get o "system"); [|discriminate].
  destruct (to_primitive (if truthy l then l else Number (Num 1024)));
    [|discriminate].
  destruct (if truthy cr then to_primitive cr else Return tt); [|discriminate].
  injection Hp as <-. simpl. repeat split; trivial.
Qed.

(** X2: the conversation in every call to the provider is not empty,
    starts with a user message, and holds only clean messages: role "user"
    or "assistant", content not empty and trimmed. *)
Theorem upstream_messages_are_clean req env out calls c :
  handler host upstream req env = (out, calls) ->
  In c calls ->
  exists m0 rest,
    messages (payload c) = m0 :: rest /\
    role m0 = "user" /\
    Forall clean (m0 :: rest).
Proof.
  intros Hh Hin.
  destruct (handler_call _ _ _ _ _ Hh Hin)
    as (_ & items & o & key & m0 & rest & p & _ & _ & _ & _ & _ & _
        & Hcm & Hr & Hp & -> & _ & _).
  destruct (ProxyFacts.anthropicPayload_fields _ _ _ _ Hp)
    as (_ & _ & _ & _ & _ & _ & _ & _ & Hmsgs).
  exists m0, rest. simpl. rewrite Hmsgs.
  repeat split; trivial. exact (claudeMessages_clean _ _ Hcm).
Qed.

Lemma clamp_within length : within 1 4096 (clamp_max_tokens host length).
Proof.
  unfold clamp_max_tokens, within, Math_min, Math_max.
  destruct (ToNumber host _) as [|q]; [exact I|].
  split.
  - apply Q.min_glb; [apply Q.le_max_r|discriminate].
  - apply Q.le_min_r.
Qed.

Lemma temperature_at_most creativity :
  at_most 1 (to_temperature host creativity).
Proof.
  unfold to_temperature, at_most, Math_min, div.
  destruct (truthy creativity); [|discriminate].
  destruct (ToNumber host creativity) as [|q]; [exact I|].
  apply Q.le_min_r.
Qed.

(** X3: whatever the options hold, the [max_tokens] of a call to the
    provider is NaN or lies in [1, 4096], and its [temperature] is NaN or
    at most 1; when the length option is absent or a number,
    [max_tokens] is a number. *)
Theorem upstream_numbers_are_bounded req env out calls c :
  handler host upstream req env = (out, calls) ->
  In c calls ->
  within 1 4096 (max_tokens (payload c)) /\
  at_most 1 (temperature (payload c)) /\
  (forall o length,
     get (body req) "options" = Return o ->
     get o "length" = Return length ->
     length = Undefined \/ (exists n, length = Number (Num n)) ->
     exists q, max_tokens (payload c) = Num q).
Proof.
  intros Hh Hin.
  destruct (handler_call _ _ _ _ _ Hh Hin)
    as (_ & items & o & key & m0 & rest & p & _ & Ho & _ & _ & _ & _
        & _ & _ & Hp & -> & _ & _).
  destruct (ProxyFacts.anthropicPayload_fields _ _ _ _ Hp)
    as (l & cr & sy & Hl & _ & _ & Hmax & Htemp & _).
  simpl. rewrite Hmax, Htemp.
  split; [apply clamp_within|]. split; [apply temperature_at_most|].
  intros o' l' Ho' Hl' Hcase. rewrite Ho in Ho'. injection Ho' as <-.
  rewrite Hl in Hl'. injection Hl' as <-.
  unfold clamp_max_tokens, Math_min, Math_max.
  destruct Hcase as [->|[n ->]]; simpl; [eauto|].
  destruct (negb (Qeq_bool n 0)); simpl; eauto.
Qed.

(** Every response of the handler, by the place that wrote it. *)
Lemma handler_shape req env :
  exists r calls,
    handler host upstream req env = (Return r, calls) /\
    ((calls = [] /\
      (r = res_end 200 \/
       r = res_json 405 (error_body "Method not allowed") \/
       r = res_json 400 (error_body "Invalid messages format") \/
       r = res_json 400 (error_body "Missing options") \/
       r = res_json 500 not_configured \/
       r = res_json 200 (choices_body "pong") \/
       exists e, r = on_error e)) \/
     (exists c, calls = [c] /\ r = finish (after_fetch host (upstream c)))).
Proof.
  unfold handler, handler_eff.
  destruct (method req =? "OPTIONS");
    [eexists _, _; split; [reflexivity|left; split; [reflexivity|tauto]]|].
  destruct (negb (method req =? "POST"));
    [eexists _, _; split; [reflexivity|left; split; [reflexivity|tauto]]|].
  assert (Herr : forall e, exists r calls,
            catch_block e [] = (Return r, calls) /\
            ((calls = [] /\
              (r = res_end 200 \/
               r = res_json 405 (error_body "Method not allowed") \/
               r = res_json 400 (error_body "Invalid messages format") \/
               r = res_json 400 (error_body "Missing options") \/
               r = res_json 500 not_configured \/
               r = res_json 200 (choices_body "pong") \/
               exists e, r = on_error e)) \/
             (exists c, calls = [c] /\
                        r = finish (after_fetch host (upstream c))))).
  { intros e. exists (on_error e), [].
    rewrite ProxyFacts.catch_block_on_error.
    split; [reflexivity|]. left. split; [reflexivity|]. eauto 10. }
  unfold try_catch, try_block, bind, lift, ret.
  destruct (get (body req) "messages") as [ms|e]; [|apply Herr].
  destruct (get (body req) "options") as [o|e]; [|apply Herr].
  destruct ms as [| | | | |items|];
    try (eexists _, _; split; [reflexivity|left; split; [reflexivity|tauto]]).
  destruct (negb (truthy o));
    [eexists _, _; split; [reflexivity|left; split; [reflexivity|tauto]]|].
  destruct env as [key|];
    [|eexists _, _; split; [reflexivity|left; split; [reflexivity|tauto]]].
  destruct (key =? "");
    [eexists _, _; split; [reflexivity|left; split; [reflexivity|tauto]]|].
  destruct (if (List.length items =? 1)%nat
            then (c <- get (nth 0 items Undefined) "content" ;;
                  Return (is_string c "ping"))%outcome
            else Return false) as [[|]|e];
    [eexists _, _; split; [reflexivity|left; split; [reflexivity|tauto]]
    | |apply Herr].
  destruct (ProxyFacts.fetchClaudeResponse_cases host upstream items o key)
    as [[e He]|[p Hp]].
  - rewrite He. apply Herr.
  - rewrite Hp. exists (finish (after_fetch host (upstream (request key p)))),
      [request key p].
    split; [|right; eauto].
    destruct (after_fetch host (upstream (request key p))) as [text|e]; simpl.
    + destruct ((text =? "") || (trim text =? "")); reflexivity.
    + rewrite ProxyFacts.catch_block_on_error. reflexivity.
Qed.

Lemma responseContent_clean text t :
  responseContent host text = Return t -> t <> "" /\ trim t = t.
Proof.
  unfold responseContent, obind.
  destruct (JSON_parse host text) as [|data]; [discriminate|].
  destruct (get data "content") as [c|]; [|discriminate].
  destruct c as [| | | | |items|]; try discriminate.
  destruct (List.length items =? 0)%nat; [discriminate|].
  destruct (negb (truthy (nth 0 items Undefined))); [discriminate|].
  destruct (get (nth 0 items Undefined) "text") as [v|]; [|discriminate].
  destruct v as [| | | |t0| |]; try discriminate.
  destruct (trim t0 =? "") eqn:E; [discriminate|].
  intros H. injection H as <-. split; [|apply trim_idem].
  apply String.eqb_neq, E.
Qed.

Lemma after_fetch_clean r t :
  after_fetch host r = Return t -> t <> "" /\ trim t = t.
Proof.
  destruct r as [e|st text]; simpl; [discriminate|].
  destruct (negb (ok st)); [discriminate|]. apply responseContent_clean.
Qed.

Lemma finish_clean t :
  t <> "" -> trim t = t -> finish (Return t) = res_json 200 (choices_body t).
Proof.
  intros Hne Ht. simpl. rewrite Ht.
  apply String.eqb_neq in Hne. rewrite Hne. reflexivity.
Qed.

(** X4: a 200 response that carries a body carries one reply, and its
    text is not empty and has no blank at either end. *)
Theorem reply_is_clean req env r calls b :
  handler host upstream req env = (Return r, calls) ->
  status r = 200%Z -> json r = Some b ->
  exists text, b = choices_body text /\ text <> "" /\ trim text = text.
Proof.
  intros Hh Hs Hj.
  destruct (handler_shape req env) as (r' & calls' & Hh' & Hcase).
  rewrite Hh in Hh'. injection Hh' as <- <-.
  destruct Hcase as [[_ Hr]|(c & _ & Hr)].
  - destruct Hr as [->|[->|[->|[->|[->|[->|[e ->]]]]]]];
      try discriminate.
    + injection Hj as <-. exists "pong".
      split; [reflexivity|]. split; [discriminate|reflexivity].
    + rewrite ProxyFacts.on_error_status in Hs. discriminate.
  - subst r.
    destruct (after_fetch host (upstream c)) as [t|e] eqn:Ea.
    + destruct (after_fetch_clean _ _ Ea) as [Hne Ht].
      rewrite (finish_clean _ Hne Ht) in Hj. injection Hj as <-.
      exists t. auto.
    + simpl in Hs. rewrite ProxyFacts.on_error_status in Hs. discriminate.
Qed.

(** X5: the answer "Empty response from AI" of lines 57-60 is never
    given: [fetchClaudeResponse] returns no empty or blank text. *)
Theorem empty_reply_is_never_answered req env :
  fst (handler host upstream req env)
  <> Return (res_json 500 (error_body "Empty response from AI")).
Proof.
  destruct (handler_shape req env) as (r & calls' & Hh' & Hcase).
  rewrite Hh'. simpl.
  intros Heq. injection Heq as Hr.
  assert (Herr : forall e, on_error e
                 <> res_json 500 (error_body "Empty response from AI")).
  { intros e. unfold on_error.
    destruct (includes (message e) "401"); [discriminate|].
    destruct (includes (message e) "429"); [discriminate|].
    destruct (includes (message e) "400"); discriminate. }
  destruct Hcase as [[_ Hc]|(c & _ & Hc)].
  - destruct Hc as [->|[->|[->|[->|[->|[->|[e ->]]]]]]];
      try discriminate.
    exact (Herr e Hr).
  - subst r.
    destruct (after_fetch host (upstream c)) as [t|e] eqn:Ea.
    + destruct (after_fetch_clean _ _ Ea) as [Hne Ht].
      rewrite (finish_clean _ Hne Ht) in Hr. discriminate.
    + exact (Herr e Hr).
Qed.

Lemma get_string_truthy v key t : get v key = Return (Str t) -> truthy v = true.
Proof.
  destruct v; simpl; try discriminate; trivial;
    destruct (key =? "length"); discriminate.
Qed.

(** X6: when the provider answers a call with an ok status and a JSON body
    whose first content item has a text that is not blank, the handler
    answers 200 with that text, trimmed, as the reply. *)
Theorem reply_is_the_trimmed_text req env out calls c st text data item rest t :
  handler host upstream req env = (out, calls) ->
  In c calls ->
  upstream c = Responded st text -> ok st = true ->
  JSON_parse host text = inr data ->
  get data "content" = Return (Arr (item :: rest)) ->
  get item "text" = Return (Str t) ->
  trim t <> "" ->
  out = Return (res_json 200 (choices_body (trim t))).
Proof.
  intros Hh Hin Hup Hok Hparse Hcontent Htext Hne.
  destruct (handler_call _ _ _ _ _ Hh Hin)
    as (_ & items & o & key & m0 & ms & p & _ & _ & _ & _ & _ & _
        & _ & _ & _ & _ & _ & ->).
  f_equal. rewrite Hup. unfold after_fetch. rewrite Hok. simpl negb. cbv iota.
  assert (Hrc : responseContent host text = Return (trim t)).
  { unfold responseContent. rewrite Hparse. simpl. rewrite Hcontent. simpl.
    rewrite (get_string_truthy _ _ _ Htext). simpl. rewrite Htext.
    cbv beta iota delta [obind].
    apply String.eqb_neq in Hne. rewrite Hne. reflexivity. }
  rewrite Hrc. apply finish_clean; [exact Hne|apply trim_idem].
Qed.

Lemma substring0_length n s : (String.length (substring0 n s) <= n)%nat.
Proof.
  unfold substring0. revert s.
  induction n as [|n IH]; intros [|c r]; simpl; try lia.
  specialize (IH r). lia.
Qed.

(** X7: when the provider answers a call with status 401 and a body that
    is not JSON, the handler answers 500 with the authentication guidance,
    and the details are the status line followed by at most the first 200
    characters of the body. *)
Theorem unauthorized_is_annotated req env out calls c text m :
  handler host upstream req env = (out, calls) ->
  In c calls ->
  upstream c = Responded 401 text ->
  JSON_parse host text = inl m ->
  out = Return (res_json 500
          (error_details
             "Authentication failed. Please check your ANTHROPIC_API_KEY."
             ("Claude API Error: 401 - " ++ substring0 200 text))) /\
  (String.length (substring0 200 text) <= 200)%nat.
Proof.
  intros Hh Hin Hup Hparse. split; [|apply substring0_length].
  destruct (handler_call _ _ _ _ _ Hh Hin)
    as (_ & items & o & key & m0 & ms & p & _ & _ & _ & _ & _ & _
        & _ & _ & _ & _ & _ & ->).
  rewrite Hup. unfold after_fetch, errorMessage. rewrite Hparse.
  reflexivity.
Qed.

(** X8: when the provider answers a call with a status that is not ok and
    a JSON body that holds a text under [error.message], the handler
    answers 500 with that text as details, and the label is chosen by the
    text alone, whatever the status: a text that holds none of "401",
    "429" and "400" gives "Server error". *)
Theorem provider_message_decides req env out calls c st text data e m :
  handler host upstream req env = (out, calls) ->
  In c calls ->
  upstream c = Responded st text -> ok st = false ->
  JSON_parse host text = inr data ->
  get data "error" = Return e ->
  get_opt e "message" = Return (Str m) -> m <> "" ->
  out = Return (on_error (Error m)) /\
  (includes m "401" = false -> includes m "429" = false ->
   includes m "400" = false ->
   out = Return (res_json 500 (error_details "Server error" m))).
Proof.
  intros Hh Hin Hup Hok Hparse Herror Hmsg Hne.
  destruct (handler_call _ _ _ _ _ Hh Hin)
    as (_ & items & o & key & m0 & ms & p & _ & _ & _ & _ & _ & _
        & _ & _ & _ & _ & _ & ->).
  rewrite Hup. unfold after_fetch. rewrite Hok. simpl negb. cbv iota.
  assert (Hem : errorMessage host st text = m).
  { unfold errorMessage. rewrite Hparse, Herror. simpl. rewrite Hmsg. simpl.
    apply String.eqb_neq in Hne. rewrite Hne. reflexivity. }
  rewrite Hem. split; [reflexivity|].
  intros H1 H2 H3. simpl. unfold on_error. simpl. rewrite H1, H2, H3.
  reflexivity.
Qed.

Lemma filter_valid_null items :
  In Null items -> exists e, filter_valid items = Throw e.
Proof.
  induction items as [|msg rest IH]; intros Hin; [destruct Hin|].
  simpl. destruct Hin as [->|Hin]; [simpl; eauto|].
  destruct (IH Hin) as [e He]. rewrite He. unfold obind.
  destruct (get msg "role") as [r|]; [|eauto].
  destruct (truthy r); [destruct (get msg "content")|]; eauto.
Qed.

(** X9: a null entry in [messages] is not filtered out: line 106 (or line
    42, for a single entry) throws on it, and a POST with options present
    is answered 500 without any call to the provider. *)
Theorem null_entry_is_not_filtered req env items o :
  method req = "POST" ->
  get (body req) "messages" = Return (Arr items) ->
  get (body req) "options" = Return o -> truthy o = true ->
  In Null items ->
  exists r, handler host upstream req env = (Return r, []) /\
            status r = 500%Z.
Proof.
  intros Hm Hms Ho Ht Hin.
  unfold handler, handler_eff, try_catch, try_block, bind, lift, ret.
  rewrite Hm, Hms, Ho, Ht. simpl.
  destruct env as [key|]; [|eexists; split; reflexivity].
  destruct (key =? ""); [eexists; split; reflexivity|].
  destruct (if (List.length items =? 1)%nat
            then (c <- get (nth 0 items Undefined) "content" ;;
                  Return (is_string c "ping"))%outcome
            else Return false) as [[|]|e] eqn:Ep.
  - exfalso. destruct items as [|m [|m' rest]]; simpl in Ep; try discriminate.
    destruct Hin as [->|[]]. discriminate.
  - assert (Hf : exists e, fetchClaudeResponse host upstream items o key []
                           = (Throw e, [])).
    { unfold fetchClaudeResponse, claudeMessages, bind, lift.
      destruct (filter_valid_null items Hin) as [e ->]. simpl. eauto. }
    destruct Hf as [e ->]. rewrite ProxyFacts.catch_block_on_error.
    eexists; split; [reflexivity|apply ProxyFacts.on_error_status].
  - rewrite ProxyFacts.catch_block_on_error.
    eexists; split; [reflexivity|apply ProxyFacts.on_error_status].
Qed.

End Facts.

(** X1, witness: a greeting sent with the key "secret". *)
Lemma upstream_call_is_guarded_witness :
  In hello_call (snd (handler pong_host greeting hello_request (Some "secret"))) /\
  snd (handler pong_host greeting hello_request (Some "secret")) = [hello_call] /\
  method hello_request = "POST" /\
  Some "secret" = Some (x_api_key hello_call) /\
  x_api_key hello_call <> "" /\
  url hello_call = "https://api.anthropic.com/v1/messages" /\
  anthropic_version hello_call = "2023-06-01" /\
  model (payload hello_call) = "claude-sonnet-4-20250514".
Proof.
  assert (Hin : In hello_call
            (snd (handler pong_host greeting hello_request (Some "secret"))))
    by (left; reflexivity).
  split; [exact Hin|].
  exact (upstream_call_is_guarded pong_host greeting hello_request
           (Some "secret") _ _ hello_call (surjective_pairing _) Hin).
Defined.

(** X2, witness: the same run. *)
Lemma upstream_messages_are_clean_witness :
  In hello_call (snd (handler pong_host greeting hello_request (Some "secret"))) /\
  exists m0 rest,
    messages (payload hello_call) = m0 :: rest /\
    role m0 = "user" /\
    Forall clean (m0 :: rest).
Proof.
  assert (Hin : In hello_call
            (snd (handler pong_host greeting hello_request (Some "secret"))))
    by (left; reflexivity).
  split; [exact Hin|].
  exact (upstream_messages_are_clean pong_host greeting hello_request
           (Some "secret") _ _ hello_call (surjective_pairing _) Hin).
Defined.

(** X3, witness: the same run. *)
Lemma upstream_numbers_are_bounded_witness :
  In hello_call (snd (handler pong_host greeting hello_request (Some "secret"))) /\
  within 1 4096 (max_tokens (payload hello_call)) /\
  at_most 1 (temperature (payload hello_call)).
Proof.
  assert (Hin : In hello_call
            (snd (handler pong_host greeting hello_request (Some "secret"))))
    by (left; reflexivity).
  split; [exact Hin|].
  destruct (upstream_numbers_are_bounded pong_host greeting hello_request
              (Some "secret") _ _ hello_call (surjective_pairing _) Hin)
    as (H1 & H2 & _).
  exact (conj H1 H2).
Defined.

(** X4, witness: the same run, answered with the reply "Hello!". *)
Lemma reply_is_clean_witness :
  handler pong_host greeting hello_request (Some "secret")
  = (Return (res_json 200 (choices_body "Hello!")), [hello_call]) /\
  exists text,
    choices_body "Hello!" = choices_body text /\ text <> "" /\ trim text = text.
Proof.
  assert (Hrun : handler pong_host greeting hello_request (Some "secret")
                 = (Return (res_json 200 (choices_body "Hello!")), [hello_call]))
    by reflexivity.
  split; [exact Hrun|].
  exact (reply_is_clean pong_host greeting hello_request (Some "secret")
           _ _ _ Hrun eq_refl eq_refl).
Defined.

(** X6, witness: the provider's text " Hello! " is answered as "Hello!". *)
Lemma reply_is_the_trimmed_text_witness :
  In hello_call (snd (handler pong_host greeting hello_request (Some "secret"))) /\
  trim " Hello! " <> "" /\
  fst (handler pong_host greeting hello_request (Some "secret"))
  = Return (res_json 200 (choices_body (trim " Hello! "))).
Proof.
  assert (Hin : In hello_call
            (snd (handler pong_host greeting hello_request (Some "secret"))))
    by (left; reflexivity).
  assert (Hne : trim " Hello! " <> "") by (vm_compute; discriminate).
  split; [exact Hin|]. split; [exact Hne|].
  exact (reply_is_the_trimmed_text pong_host greeting hello_request
           (Some "secret") _ _ hello_call 200%Z "GREETING"
           (Obj [("content", Arr [Obj [("type", Str "text");
                                       ("text", Str " Hello! ")]])])
           (Obj [("type", Str "text"); ("text", Str " Hello! ")]) [] " Hello! "
           (surjective_pairing _) Hin eq_refl eq_refl eq_refl eq_refl eq_refl
           Hne).
Defined.

(** X7, witness: the provider answers 401 with a body that is not JSON. *)
Lemma unauthorized_is_annotated_witness :
  In hello_call
     (snd (handler plain_host (answering 401 "denied") hello_request
             (Some "secret"))) /\
  fst (handler plain_host (answering 401 "denied") hello_request (Some "secret"))
  = Return (res_json 500
      (error_details
         "Authentication failed. Please check your ANTHROPIC_API_KEY."
         ("Claude API Error: 401 - " ++ substring0 200 "denied"))).
Proof.
  assert (Hin : In hello_call
            (snd (handler plain_host (answering 401 "denied") hello_request
                    (Some "secret"))))
    by (left; reflexivity).
  split; [exact Hin|].
  exact (proj1 (unauthorized_is_annotated plain_host (answering 401 "denied")
                  hello_request (Some "secret") _ _ hello_call "denied"
                  "Unexpected token in JSON"
                  (surjective_pairing _) Hin eq_refl eq_refl)).
Defined.

(** X8, witness: the provider answers 401 with the JSON error message
    "invalid x-api-key"; the handler answers "Server error". *)
Lemma provider_message_decides_witness :
  In hello_call
     (snd (handler pong_host (answering 401 "DENIED") hello_request
             (Some "secret"))) /\
  fst (handler pong_host (answering 401 "DENIED") hello_request (Some "secret"))
  = Return (res_json 500 (error_details "Server error" "invalid x-api-key")).
Proof.
  assert (Hin : In hello_call
            (snd (handler pong_host (answering 401 "DENIED") hello_request
                    (Some "secret"))))
    by (left; reflexivity).
  split; [exact Hin|].
  assert (Hne : "invalid x-api-key" <> "") by discriminate.
  exact (proj2 (provider_message_decides pong_host (answering 401 "DENIED")
                  hello_request (Some "secret") _ _ hello_call 401%Z "DENIED"
                  (Obj [("error", Obj [("message", Str "invalid x-api-key")])])
                  (Obj [("message", Str "invalid x-api-key")])
                  "invalid x-api-key"
                  (surjective_pairing _) Hin eq_refl eq_refl eq_refl eq_refl
                  eq_refl Hne)
               eq_refl eq_refl eq_refl).
Defined.

(** X9, witness: a null entry after a user message. *)
Lemma null_entry_is_not_filtered_witness :
  In Null [chat_message "user" "hello"; Null] /\
  exists r,
    handler plain_host no_network
      (post (proxy_body [chat_message "user" "hello"; Null] (Obj [])))
      (Some "secret") = (Return r, []) /\
    status r = 500%Z.
Proof.
  assert (Hin : In Null [chat_message "user" "hello"; Null])
    by (right; left; reflexivity).
  split; [exact Hin|].
  exact (null_entry_is_not_filtered plain_host no_network
           (post (proxy_body [chat_message "user" "hello"; Null] (Obj [])))
           (Some "secret") [chat_message "user" "hello"; Null] (Obj [])
           eq_refl eq_refl eq_refl eq_refl Hin).
Defined.

End ProxyMore.

(* ===================================================================== *)
(** ** Further facts about the forwarder                                  *)
(* ===================================================================== *)

Module ForwarderMore.
Import JS Http ProxyNotions ForwarderNotions MoreNotions.

(** Past the guards of lines 8-27 the forwarder makes its one call. *)
Ltac pass_guards Hm Hmsg Ht Hk Hup :=
  unfold Forwarder.handler, Forwarder.handler_eff, try_catch,
    Forwarder.try_block, Forwarder.catch_block, Forwarder.fetch,
    Forwarder.unset, bind, lift, ret;
  rewrite Hm, Hmsg; simpl; rewrite Ht; simpl;
  match goal with
  | |- context [?k =? ""] =>
      destruct (k =? "") eqn:E; [apply String.eqb_eq in E; contradiction|]
  end;
  rewrite Hup.

Section Facts.
Variable host : Host.
Variable upstream : Forwarder.UpstreamCall -> FetchResult.

(** X10: the forwarder calls the provider at most once, and only for a
    POST whose [message] is truthy, with a configured key; the call
    carries that message as it came (not trimmed, not checked to be a
    text), as the single user message, with [max_tokens] 1024. *)
Theorem forwarder_call_is_guarded req env out calls c :
  Forwarder.handler host upstream req env = (out, calls) ->
  In c calls ->
  calls = [c] /\
  method req = "POST" /\
  env = Some (Forwarder.x_api_key c) /\ Forwarder.x_api_key c <> "" /\
  get (body req) "message" = Return (Forwarder.message c) /\
  truthy (Forwarder.message c) = true /\
  Forwarder.max_tokens c = 1024%Z /\
  Forwarder.model c = "claude-sonnet-4-20250514".
Proof.
  unfold Forwarder.handler, Forwarder.handler_eff.
  destruct (method req =? "OPTIONS");
    [intros H; injection H as <- <-; intros []|].
  destruct (method req =? "POST") eqn:Em; simpl;
    [|intros H; injection H as <- <-; intros []].
  apply String.eqb_eq in Em.
  unfold bind, lift.
  destruct (get (body req) "message") as [msg|e];
    [|intros H; injection H as <- <-; intros []].
  destruct (truthy msg) eqn:Ht; simpl;
    [|intros H; injection H as <- <-; intros []].
  unfold try_catch, Forwarder.try_block, Forwarder.catch_block,
    Forwarder.fetch, Forwarder.unset, bind, lift, ret.
  destruct env as [key|]; [|intros H; injection H as <- <-; intros []].
  destruct (key =? "") eqn:Ek; [intros H; injection H as <- <-; intros []|].
  apply String.eqb_neq in Ek.
  intros H Hin.
  assert (Hc : calls = [Forwarder.request key msg]).
  { destruct (upstream (Forwarder.request key msg)) as [e|st text];
      [injection H as _ <-; reflexivity|].
    simpl in H.
    destruct (negb (ok st));
      destruct (response_json host text) as [data|e];
      try (injection H as _ <-; reflexivity); simpl in H.
    - destruct (get data "error") as [er|e];
        [|injection H as _ <-; reflexivity].
      destruct (get_opt er "message");
        injection H as _ <-; reflexivity.
    - destruct (get data "content") as [ct|e];
        [|injection H as _ <-; reflexivity].
      destruct (first ct) as [c0|e]; [|injection H as _ <-; reflexivity].
      destruct (get c0 "text"); injection H as _ <-; reflexivity. }
  subst calls. destruct Hin as [<-|[]]. simpl. repeat split; trivial.
Qed.

(** X11: when the provider answers the forwarder with an ok status and a
    JSON body, the forwarder answers 200 with [{response: v}], where [v]
    is whatever [content[0].text] holds, as it is. *)
Theorem forwarder_relays_text req env msg key st text data ct c0 v :
  method req = "POST" ->
  get (body req) "message" = Return msg -> truthy msg = true ->
  env = Some key -> key <> "" ->
  upstream (Forwarder.request key msg) = Responded st text ->
  ok st = true ->
  JSON_parse host text = inr data ->
  get data "content" = Return ct ->
  first ct = Return c0 ->
  get c0 "text" = Return v ->
  Forwarder.handler host upstream req env
  = (Return (Forwarder.res_json 200 (Obj [("response", v)])),
     [Forwarder.request key msg]).
Proof.
  intros Hm Hmsg Ht -> Hk Hup Hok Hparse Hct Hc0 Hv.
  pass_guards Hm Hmsg Ht Hk Hup.
  rewrite Hok. simpl. unfold response_json. rewrite Hparse, Hct, Hc0, Hv.
  reflexivity.
Qed.

(** X12: when the provider answers the forwarder with a status that is not
    ok and a body that is not JSON, the status is not relayed: the
    forwarder answers 500, with the parser's message as details. *)
Theorem forwarder_unreadable_error req env msg key st text m :
  method req = "POST" ->
  get (body req) "message" = Return msg -> truthy msg = true ->
  env = Some key -> key <> "" ->
  upstream (Forwarder.request key msg) = Responded st text ->
  ok st = false ->
  JSON_parse host text = inl m ->
  Forwarder.handler host upstream req env
  = (Return (Forwarder.res_json 500
       (Obj [("error", Str "Failed to process request"); ("details", Str m)])),
     [Forwarder.request key msg]).
Proof.
  intros Hm Hmsg Ht -> Hk Hup Hok Hparse.
  pass_guards Hm Hmsg Ht Hk Hup.
  rewrite Hok. simpl. unfold response_json. rewrite Hparse.
  reflexivity.
Qed.

(** X13: when the provider answers the forwarder with an ok status and an
    empty [content] list, the TypeError of [content[0].text] is caught:
    the forwarder answers 500 "Failed to process request". *)
Theorem forwarder_empty_content req env msg key st text data :
  method req = "POST" ->
  get (body req) "message" = Return msg -> truthy msg = true ->
  env = Some key -> key <> "" ->
  upstream (Forwarder.request key msg) = Responded st text ->
  ok st = true ->
  JSON_parse host text = inr data ->
  get data "content" = Return (Arr []) ->
  exists details,
    Forwarder.handler host upstream req env
    = (Return (Forwarder.res_json 500
         (Obj [("error", Str "Failed to process request");
               ("details", Str details)])),
       [Forwarder.request key msg]).
Proof.
  intros Hm Hmsg Ht -> Hk Hup Hok Hparse Hct.
  pass_guards Hm Hmsg Ht Hk Hup.
  rewrite Hok. simpl. unfold response_json. rewrite Hparse, Hct.
  eexists. reflexivity.
Qed.

(** X14: a POST without a body. The multi-turn handler destructures the
    body inside its [try] and answers 500 "Server error"; the forwarder
    destructures it before its [try], so the TypeError escapes and no
    response is written. Neither calls the provider. *)
Theorem post_without_body
        (proxy_upstream : Proxy.UpstreamCall -> FetchResult) req penv env :
  method req = "POST" ->
  body req = Undefined \/ body req = Null ->
  (exists details,
     Proxy.handler host proxy_upstream req penv
     = (Return (Proxy.res_json 500
          (Proxy.error_details "Server error" details)), [])) /\
  (exists e, Forwarder.handler host upstream req env = (Throw e, [])).
Proof.
  intros Hm Hb. split.
  - unfold Proxy.handler, Proxy.handler_eff, try_catch, Proxy.try_block,
      bind, lift.
    rewrite Hm. destruct Hb as [-> | ->]; eexists; reflexivity.
  - unfold Forwarder.handler, Forwarder.handler_eff, bind, lift.
    rewrite Hm. destruct Hb as [-> | ->]; eexists; reflexivity.
Qed.

End Facts.

(** X10, witness: the forwarder, rate limited. *)
Lemma forwarder_call_is_guarded_witness :
  In (Forwarder.request "secret" (Str "hi"))
     (snd (Forwarder.handler rate_host rate_limited (forward_post (Str "hi"))
             (Some "secret"))) /\
  snd (Forwarder.handler rate_host rate_limited (forward_post (Str "hi"))
         (Some "secret")) = [Forwarder.request "secret" (Str "hi")] /\
  method (forward_post (Str "hi")) = "POST" /\
  Some "secret" = Some (Forwarder.x_api_key (Forwarder.request "secret" (Str "hi"))) /\
  Forwarder.x_api_key (Forwarder.request "secret" (Str "hi")) <> "" /\
  get (body (forward_post (Str "hi"))) "message"
    = Return (Forwarder.message (Forwarder.request "secret" (Str "hi"))) /\
  truthy (Forwarder.message (Forwarder.request "secret" (Str "hi"))) = true /\
  Forwarder.max_tokens (Forwarder.request "secret" (Str "hi")) = 1024%Z /\
  Forwarder.model (Forwarder.request "secret" (Str "hi"))
    = "claude-sonnet-4-20250514".
Proof.
  assert (Hin : In (Forwarder.request "secret" (Str "hi"))
     (snd (Forwarder.handler rate_host rate_limited (forward_post (Str "hi"))
             (Some "secret")))) by (left; reflexivity).
  split; [exact Hin|].
  exact (forwarder_call_is_guarded rate_host rate_limited
           (forward_post (Str "hi")) (Some "secret") _ _
           (Forwarder.request "secret" (Str "hi"))
           (surjective_pairing _) Hin).
Defined.

(** X11, witness: the provider's text " Hello! " is relayed untrimmed. *)
Lemma forwarder_relays_text_witness :
  Forwarder.handler pong_host (fun _ => Responded 200 "GREETING")
    (forward_post (Str "hi")) (Some "secret")
  = (Return (Forwarder.res_json 200 (Obj [("response", Str " Hello! ")])),
     [Forwarder.request "secret" (Str "hi")]).
Proof.
  assert (Hk : "secret" <> "") by discriminate.
  exact (forwarder_relays_text pong_host (fun _ => Responded 200 "GREETING")
           (forward_post (Str "hi")) (Some "secret") (Str "hi") "secret"
           200%Z "GREETING"
           (Obj [("content", Arr [Obj [("type", Str "text");
                                       ("text", Str " Hello! ")]])])
           (Arr [Obj [("type", Str "text"); ("text", Str " Hello! ")]])
           (Obj [("type", Str "text"); ("text", Str " Hello! ")])
           (Str " Hello! ")
           eq_refl eq_refl eq_refl eq_refl Hk eq_refl eq_refl eq_refl eq_refl
           eq_refl eq_refl).
Defined.

(** X12, witness: the provider answers 503 with a page of HTML. *)
Lemma forwarder_unreadable_error_witness :
  Forwarder.handler plain_host (fun _ => Responded 503 "<html>")
    (forward_post (Str "hi")) (Some "secret")
  = (Return (Forwarder.res_json 500
       (Obj [("error", Str "Failed to process request");
             ("details", Str "Unexpected token in JSON")])),
     [Forwarder.request "secret" (Str "hi")]).
Proof.
  assert (Hk : "secret" <> "") by discriminate.
  exact (forwarder_unreadable_error plain_host (fun _ => Responded 503 "<html>")
           (forward_post (Str "hi")) (Some "secret") (Str "hi") "secret"
           503%Z "<html>" "Unexpected token in JSON"
           eq_refl eq_refl eq_refl eq_refl Hk eq_refl eq_refl eq_refl).
Defined.

(** X13, witness: the provider answers 200 with [{content: []}]. *)
Lemma forwarder_empty_content_witness :
  exists details,
    Forwarder.handler empty_content_host (fun _ => Responded 200 "EMPTY")
      (forward_post (Str "hi")) (Some "secret")
    = (Return (Forwarder.res_json 500
         (Obj [("error", Str "Failed to process request");
               ("details", Str details)])),
       [Forwarder.request "secret" (Str "hi")]).
Proof.
  assert (Hk : "secret" <> "") by discriminate.
  exact (forwarder_empty_content empty_content_host
           (fun _ => Responded 200 "EMPTY")
           (forward_post (Str "hi")) (Some "secret") (Str "hi") "secret"
           200%Z "EMPTY" (Obj [("content", Arr [])])
           eq_refl eq_refl eq_refl eq_refl Hk eq_refl eq_refl eq_refl eq_refl).
Defined.

(** X14, witness: a POST whose body is undefined. *)
Lemma post_without_body_witness :
  (exists details,
     Proxy.handler plain_host no_network
       {| method := "POST"; body := Undefined |} (Some "secret")
     = (Return (Proxy.res_json 500
          (Proxy.error_details "Server error" details)), [])) /\
  (exists e,
     Forwarder.handler plain_host rate_limited
       {| method := "POST"; body := Undefined |} (Some "secret")
     = (Throw e, [])).
Proof.
  exact (post_without_body plain_host rate_limited no_network
           {| method := "POST"; body := Undefined |} (Some "secret")
           (Some "secret") eq_refl (or_introl eq_refl)).
Defined.

End ForwarderMore.

(* ===================================================================== *)
(** ** Further facts about the client                                     *)
(* ===================================================================== *)

Module ClientMore.
Import JS Http Client ClientNotions ProxyNotions MoreNotions.

Section Facts.
Variable host : Host.
Variable proxy : ProxyCall -> FetchResult.

(** X15: the guards that the claims leave out. With a blank input
    [sendMessage] changes nothing at all; with the service marked as
    anything but "online" it only shows the offline toast: no request is
    issued and the conversation, the input and the counters stay. *)
Theorem refused_sends s :
  (trim (input s) = "" -> sendMessage host proxy s = (Return tt, s)) /\
  (trim (input s) <> "" -> pendingMessages s = [] ->
   (0 < quota_messagesLeft s)%Z -> api_status s <> "online" ->
   sendMessage host proxy s
   = (Return tt,
      set_ui (ui s ++ [showToast
                "AI is currently offline. Please try again later." "error"]) s)).
Proof.
  unfold sendMessage, bind, read, ret, emit, modify. split.
  - intros ->. reflexivity.
  - intros Hin Hp Hq Ho. rewrite Hp.
    apply String.eqb_neq in Hin. rewrite Hin.
    apply Z.leb_gt in Hq. rewrite Hq.
    apply String.eqb_neq in Ho. rewrite Ho. reflexivity.
Qed.

(** What the [try] does to the page: it throws with only the request
    logged, or it returns with the reply appended, one message counted and
    the message taken off the pending list. *)
Lemma try_block_outcome message ms o s :
  (exists e, try_block host proxy message ms o s
             = (Throw e, set_sent (sent s ++ [request ms o]) s)) \/
  (exists v s',
     try_block host proxy message ms o s = (Return tt, s') /\
     chat_messages s' = (chat_messages s ++ [{| type := "ai"; content := v |}])%list /\
     pendingMessages s'
     = filter (fun msg => negb (msg =? message)) (pendingMessages s) /\
     input s' = input s /\ sendDisabled s' = sendDisabled s /\
     sent s' = (sent s ++ [request ms o])%list).
Proof.
  unfold try_block, bind, lift, throw, fetch.
  destruct (proxy (request ms o)) as [e|st text]; [left; eauto|].
  destruct (negb (ok st)); [left; eauto|].
  destruct (response_json host text) as [data|e]; [|left; eauto].
  destruct (get data "choices") as [choices|e]; [|left; eauto].
  destruct (first choices) as [c0|e]; [|left; eauto].
  destruct (get c0 "message") as [m|e]; [|left; eauto].
  destruct (get m "content") as [ai|e]; [|left; eauto].
  right. exists ai. eexists. split; [reflexivity|].
  simpl. repeat split; reflexivity.
Qed.

Lemma remove_only message :
  filter (fun msg => negb (msg =? message)) [message] = [].
Proof.
  simpl. rewrite String.eqb_refl. reflexivity.
Qed.

(** The state in which the [try] of a send starts. *)
Lemma sendMessage_prepared s :
  may_send s ->
  exists s1,
    sendMessage host proxy s
    = try_catch (try_block host proxy (trim (input s))
                   (request_messages s1 (trim (input s))) default_options)
                (catch_block (trim (input s))) s1 /\
    request (request_messages s1 (trim (input s))) default_options
    = issued_call s /\
    chat_messages s1 = (chat_messages s ++ [user_turn s])%list /\
    pendingMessages s1 = [trim (input s)] /\
    input s1 = "" /\ sendDisabled s1 = true /\
    quota_used s1 = quota_used s /\
    quota_messagesLeft s1 = quota_messagesLeft s /\
    sent s1 = sent s.
Proof.
  intros (Hin & Hp & Hq & Ho).
  unfold sendMessage, bind at 1, read at 1.
  rewrite Hp. apply String.eqb_neq in Hin. rewrite Hin.
  apply Z.leb_gt in Hq. rewrite Hq. rewrite Ho.
  cbn -[try_block catch_block try_catch request_messages trim].
  destruct (hasMessages s);
    (eexists; split; [reflexivity|]; simpl; rewrite ?Hp;
     repeat split; reflexivity).
Qed.

(** X16: a send that passes the guards issues exactly one request, clears
    the input, leaves the send button disabled and the pending list empty,
    and adds two turns to the conversation: the user turn, then either a
    reply or the fixed apology. *)
Theorem attempted_send s :
  may_send s ->
  exists s' last,
    sendMessage host proxy s = (Return tt, s') /\
    sent s' = (sent s ++ [issued_call s])%list /\
    chat_messages s' = (chat_messages s ++ [user_turn s; last])%list /\
    type last = "ai" /\
    input s' = "" /\ sendDisabled s' = true /\
    pendingMessages s' = [].
Proof.
  intros Hs.
  destruct (sendMessage_prepared s Hs)
    as (s1 & -> & Hc & Hm & Hp & Hi & Hd & _ & _ & Hsent).
  unfold try_catch.
  destruct (try_block_outcome (trim (input s))
              (request_messages s1 (trim (input s))) default_options s1)
    as [(e & ->)|(v & s' & -> & Hm' & Hp' & Hi' & Hd' & Hs')].
  - eexists. exists apology_turn. split; [reflexivity|].
    simpl. rewrite Hc, Hm, Hp, Hsent, remove_only, <- app_assoc.
    repeat split; trivial.
  - exists s', {| type := "ai"; content := v |}. split; [reflexivity|].
    rewrite Hs', Hc, Hsent, Hm', Hm, Hp', Hp, remove_only, Hi', Hd',
      <- app_assoc.
    repeat split; trivial.
Qed.

(** X17: when the proxy answers a send with an ok status and a JSON body,
    the reply is whatever stands under [choices[0].message.content]: it is
    appended as the "ai" turn, one message is counted, and the success
    toast is the last thing shown. *)
Theorem successful_send s st text data choices c0 m v :
  may_send s ->
  proxy (issued_call s) = Responded st text -> ok st = true ->
  JSON_parse host text = inr data ->
  get data "choices" = Return choices ->
  first choices = Return c0 ->
  get c0 "message" = Return m ->
  get m "content" = Return v ->
  exists s' shown,
    sendMessage host proxy s = (Return tt, s') /\
    chat_messages s'
    = (chat_messages s ++ [user_turn s; {| type := "ai"; content := v |}])%list /\
    quota_used s' = (quota_used s + 1)%Z /\
    quota_messagesLeft s' = (quota_messagesLeft s - 1)%Z /\
    ui s' = (shown ++ [extractCodeFromResponse v; updateQuotaBar;
                       addToChatHistory (trim (input s));
                       showToast "Response generated successfully!" "success"])%list.
Proof.
  intros Hs Hup Hok Hparse Hch Hc0 Hm Hv.
  destruct (sendMessage_prepared s Hs)
    as (s1 & -> & Hc & Hcm & Hp & Hi & Hd & Hu & Hl & Hsent).
  unfold try_catch, try_block, bind, lift, fetch.
  rewrite Hc, Hup, Hok. simpl. unfold response_json.
  rewrite Hparse, Hch, Hc0, Hm, Hv.
  eexists. exists (ui s1 ++ [removeTypingIndicator])%list.
  split; [reflexivity|]. simpl. rewrite Hcm, Hu, Hl, <- !app_assoc. simpl.
  repeat split; trivial.
Qed.

(** X18: [sendMessage] never leaves a message pending: after every
    invocation the pending list is what it was before. *)
Theorem pending_is_restored s :
  pendingMessages (snd (sendMessage host proxy s)) = pendingMessages s.
Proof.
  destruct (trim (input s) =? "") eqn:H0;
    [|destruct (pendingMessages s) as [|q rest] eqn:Hp;
      [destruct (quota_messagesLeft s <=? 0)%Z eqn:H2;
       [|destruct (api_status s =? "online") eqn:H3]|]].
  1-2,4-5: unfold sendMessage, bind, read, ret, emit, modify;
           rewrite ?H0, ?Hp, ?H2, ?H3; simpl; rewrite ?Hp; reflexivity.
  assert (Hs : may_send s).
  { repeat split; trivial.
    - apply String.eqb_neq, H0.
    - apply Z.leb_gt, H2.
    - apply String.eqb_eq, H3. }
  destruct (sendMessage_prepared s Hs)
    as (s1 & -> & _ & _ & Hp1 & _ & _ & _ & _ & _).
  unfold try_catch.
  destruct (try_block_outcome (trim (input s))
              (request_messages s1 (trim (input s))) default_options s1)
    as [(e & ->)|(v & s' & -> & _ & Hp' & _)].
  - simpl. rewrite Hp1. apply remove_only.
  - simpl. rewrite Hp', Hp1. apply remove_only.
Qed.

End Facts.

(** X15, witness: a send while the service is marked offline. *)
Lemma refused_sends_witness :
  sendMessage plain_host unreachable_proxy
    (Status.set_api_status "offline" (fresh_state "hello" [] 5))
  = (Return tt,
     set_ui (ui (Status.set_api_status "offline" (fresh_state "hello" [] 5))
             ++ [showToast "AI is currently offline. Please try again later."
                           "error"])
            (Status.set_api_status "offline" (fresh_state "hello" [] 5))).
Proof.
  assert (Hin : trim (input (Status.set_api_status "offline"
                               (fresh_state "hello" [] 5))) <> "")
    by (vm_compute; discriminate).
  assert (Hq : (0 < quota_messagesLeft (Status.set_api_status "offline"
                                          (fresh_state "hello" [] 5)))%Z)
    by reflexivity.
  assert (Ho : api_status (Status.set_api_status "offline"
                             (fresh_state "hello" [] 5)) <> "online")
    by discriminate.
  exact (proj2 (refused_sends plain_host unreachable_proxy
                  (Status.set_api_status "offline" (fresh_state "hello" [] 5)))
               Hin eq_refl Hq Ho).
Defined.

(** X16, witness: a send to a proxy that cannot be reached. *)
Lemma attempted_send_witness :
  may_send (fresh_state "hello" [] 5) /\
  exists s' last,
    sendMessage plain_host unreachable_proxy (fresh_state "hello" [] 5)
    = (Return tt, s') /\
    sent s' = (sent (fresh_state "hello" [] 5)
               ++ [issued_call (fresh_state "hello" [] 5)])%list /\
    chat_messages s'
    = (chat_messages (fresh_state "hello" [] 5)
       ++ [user_turn (fresh_state "hello" [] 5); last])%list /\
    type last = "ai" /\
    input s' = "" /\ sendDisabled s' = true /\
    pendingMessages s' = [].
Proof.
  assert (Hs : may_send (fresh_state "hello" [] 5)).
  { unfold may_send. simpl. repeat split; try reflexivity.
    vm_compute. discriminate. }
  split; [exact Hs|].
  exact (attempted_send plain_host unreachable_proxy
           (fresh_state "hello" [] 5) Hs).
Defined.

(** X17, witness: a send answered with the canned reply. *)
Lemma successful_send_witness :
  may_send (fresh_state "hello" [] 5) /\
  exists s' shown,
    sendMessage pong_host (fun _ => Responded 200 "PONG")
      (fresh_state "hello" [] 5) = (Return tt, s') /\
    chat_messages s'
    = (chat_messages (fresh_state "hello" [] 5)
       ++ [user_turn (fresh_state "hello" [] 5);
           {| type := "ai"; content := Str "pong" |}])%list /\
    quota_used s' = (quota_used (fresh_state "hello" [] 5) + 1)%Z /\
    quota_messagesLeft s'
    = (quota_messagesLeft (fresh_state "hello" [] 5) - 1)%Z /\
    ui s' = (shown ++ [extractCodeFromResponse (Str "pong"); updateQuotaBar;
                       addToChatHistory (trim (input (fresh_state "hello" [] 5)));
                       showToast "Response generated successfully!" "success"])%list.
Proof.
  assert (Hs : may_send (fresh_state "hello" [] 5)).
  { unfold may_send. simpl. repeat split; try reflexivity.
    vm_compute. discriminate. }
  split; [exact Hs|].
  exact (successful_send pong_host (fun _ => Responded 200 "PONG")
           (fresh_state "hello" [] 5) 200%Z "PONG"
           (Proxy.choices_body "pong")
           (Arr [Obj [("message", Obj [("content", Str "pong");
                                       ("role", Str "assistant")])]])
           (Obj [("message", Obj [("content", Str "pong");
                                  ("role", Str "assistant")])])
           (Obj [("content", Str "pong"); ("role", Str "assistant")])
           (Str "pong")
           Hs eq_refl eq_refl eq_refl eq_refl eq_refl eq_refl eq_refl).
Defined.

End ClientMore.

(* ===================================================================== *)
(** ** Facts about the liveness check, and about client and proxy together *)
(* ===================================================================== *)

Module StatusFacts.
Import JS Http ProxyNotions ClientNotions MoreNotions Status.

Section Facts.
Variable host : Host.
Variable probe : FetchResult.
Variable now : Z.

(** [checkApiStatus] as one step: online with the time of the check when
    the probe is answered with "pong", offline with the old time of check
    in every other case. *)
Lemma checkApiStatus_step p :
  checkApiStatus host probe now p
  = (Return tt,
     if answers_pong host probe
     then set_lastCheck now
            (show_status "online" "status-dot online" "Online"
               (log_probe probe_body p))
     else show_status "offline" "status-dot offline" "Offline"
            (log_probe probe_body p)).
Proof.
  unfold checkApiStatus, try_catch, Status.try_block, Status.catch_block,
    fetch_probe, answers_pong, bind, lift, throw, modify.
  destruct probe as [e|st text]; [reflexivity|].
  destruct (ok st); simpl; [|reflexivity].
  destruct (response_json host text) as [data|e]; [|reflexivity].
  destruct (is_pong data) as [[|]|e]; reflexivity.
Qed.


(** X20: after a check that finds the service offline, [sendMessage]
    sends nothing and adds nothing to the conversation, whatever the input
    and the counters are. *)
Theorem failed_check_blocks_sends (proxy : Client.ProxyCall -> FetchResult) p :
  answers_pong host probe = false ->
  exists s',
    Client.sendMessage host proxy
      (session (snd (checkApiStatus host probe now p))) = (Return tt, s') /\
    Client.sent s' = Client.sent (session p) /\
    Client.chat_messages s' = Client.chat_messages (session p).
Proof.
  intros Hf. rewrite checkApiStatus_step, Hf. simpl.
  unfold Client.sendMessage, bind, read, ret, Client.emit, modify. simpl.
  destruct ((trim (Client.input (session p)) =? "")
            || (0 <? List.length (Client.pendingMessages (session p)))%nat);
    [eexists; repeat split; reflexivity|].
  destruct (Client.quota_messagesLeft (session p) <=? 0)%Z;
    eexists; repeat split; reflexivity.
Qed.

(** X21: the probe against the multi-turn handler. When the response of
    the handler to the probe reaches the page, the check finds the service
    online if the API key of the handler is configured, and offline if it
    is not; the provider is not called either way. *)
Theorem probe_against_proxy (upstream : Proxy.UpstreamCall -> FetchResult)
        env r calls p :
  Proxy.handler host upstream (post probe_body) env = (Return r, calls) ->
  delivers host r probe ->
  calls = [] /\
  Client.api_status (session (snd (checkApiStatus host probe now p)))
  = match env with
    | Some key => if key =? "" then "offline" else "online"
    | None => "offline"
    end.
Proof.
  intros Hh (text & b & Hp & Hj & Hparse).
  rewrite checkApiStatus_step.
  assert (Hcases :
    (exists key, env = Some key /\ (key =? "") = false /\
       r = Proxy.res_json 200 (Proxy.choices_body "pong") /\ calls = []) \/
    ((env = None \/ env = Some "") /\
       r = Proxy.res_json 500 Proxy.not_configured /\ calls = [])).
  { unfold Proxy.handler, Proxy.handler_eff, try_catch, Proxy.try_block,
      bind, lift, ret in Hh. simpl in Hh.
    destruct env as [key|]; [|injection Hh as <- <-; right; auto].
    destruct (key =? "") eqn:Ek; injection Hh as <- <-.
    - apply String.eqb_eq in Ek. subst key. right. auto.
    - left. exists key. auto. }
  destruct Hcases as [(key & -> & Ek & -> & ->)|([-> | ->] & -> & ->)];
    split; trivial; rewrite ?Ek; simpl in Hp, Hj; injection Hj as <-;
    subst probe; unfold answers_pong, response_json; rewrite Hparse;
    reflexivity.
Qed.

(** X22: what the page sends is never refused as bad input by the
    multi-turn handler: every request built by lines 71-78 is answered
    200 or 500, never 400 or 405. *)
Theorem client_requests_pass_validation
        (upstream : Proxy.UpstreamCall -> FetchResult) env ms o :
  exists r calls,
    Proxy.handler host upstream (wire_call (Client.request ms o)) env
    = (Return r, calls) /\
    (status r = 200%Z \/ status r = 500%Z).
Proof.
  unfold Proxy.handler, Proxy.handler_eff, try_catch, Proxy.try_block,
    bind, lift, ret. simpl.
  assert (Herr : forall e calls, exists r calls',
            Proxy.catch_block e calls = (Return r, calls') /\
            (status r = 200%Z \/ status r = 500%Z)).
  { intros e calls. exists (on_error e), calls.
    rewrite ProxyFacts.catch_block_on_error. split; [reflexivity|].
    right. apply ProxyFacts.on_error_status. }
  destruct env as [key|]; [|eexists _, _; split; [reflexivity|auto]].
  destruct (key =? ""); [eexists _, _; split; [reflexivity|auto]|].
  match goal with
  | |- context [if ?c then (c0 <- ?g ;; _)%outcome else _] =>
      destruct (if c then (c0 <- g ;; Return (is_string c0 "ping"))%outcome
                else Return false) as [[|]|e]
  end;
    [eexists _, _; split; [reflexivity|auto] | |apply Herr].
  match goal with
  | |- context [Proxy.fetchClaudeResponse host upstream ?items ?opts key []] =>
      destruct (ProxyFacts.fetchClaudeResponse_cases host upstream items opts key)
        as [[e He]|[p Hp]]
  end.
  - rewrite He. apply Herr.
  - rewrite Hp.
    destruct (after_fetch host (upstream (Proxy.request key p))) as [t|e].
    + destruct ((t =? "") || (trim t =? ""));
        eexists _, _; (split; [reflexivity|auto]).
    + apply Herr.
Qed.

Lemma wire_page_turns (ms : list Client.ReqMessage) :
  Forall (fun m => (Client.role m = "user" \/ Client.role m = "ai") /\
                   exists c, Client.req_content m = Str c) ms ->
  exists ts,
    map wire_message ms = map turn_object ts /\
    Forall (fun t => fst t = "user" \/ fst t = "ai") ts.
Proof.
  induction 1 as [|m rest [Hr [c Hc]] _ (ts & Hts & Hall)].
  - exists []. split; [reflexivity|constructor].
  - exists ((Client.role m, c) :: ts). split.
    + simpl. rewrite Hts. unfold wire_message at 1, turn_object at 1.
      simpl. rewrite Hc. reflexivity.
    + constructor; [exact Hr|exact Hall].
Qed.

(** X23: the replies in the history change sides on the way. The page
    keeps a reply under the type "ai" and sends the type as the role
    (lines 56-59); the handler maps every role but "assistant" to "user"
    (line 108). So for a history of user and ai turns every message that
    the handler prepares for the provider has the role "user". *)
Theorem history_reaches_provider_as_user_turns s message :
  Forall page_turn (Client.chat_messages s) ->
  exists cm,
    Proxy.claudeMessages host
      (map wire_message (Client.request_messages s message)) = Return cm /\
    Forall (fun m => Proxy.role m = "user") cm.
Proof.
  intros Hh.
  destruct (wire_page_turns (Client.request_messages s message))
    as (ts & Hts & Hall).
  { unfold Client.request_messages. apply Forall_app. split.
    - apply Forall_map. eapply Forall_impl; [|exact Hh].
      intros t [Ht Hc]. simpl. auto.
    - constructor; [|constructor]. simpl. eauto. }
  rewrite Hts, ProxyMore.claudeMessages_text_turns.
  eexists. split; [reflexivity|].
  apply Forall_forall. intros m Hin.
  apply filter_In in Hin as [Hin _].
  apply in_map_iff in Hin as (t & <- & Hin).
  apply filter_In in Hin as [Hin _].
  rewrite Forall_forall in Hall. simpl.
  destruct (Hall t Hin) as [-> | ->]; reflexivity.
Qed.

End Facts.

(** X20, witness: the probe cannot reach the proxy. *)
Lemma failed_check_blocks_sends_witness :
  answers_pong plain_host (Rejected (TypeError "Failed to fetch")) = false /\
  exists s',
    Client.sendMessage plain_host unreachable_proxy
      (session (snd (checkApiStatus plain_host
                       (Rejected (TypeError "Failed to fetch")) 0
                       (blank_page talked_state)))) = (Return tt, s') /\
    Client.sent s' = Client.sent (session (blank_page talked_state)) /\
    Client.chat_messages s'
    = Client.chat_messages (session (blank_page talked_state)).
Proof.
  split; [reflexivity|].
  exact (failed_check_blocks_sends plain_host
           (Rejected (TypeError "Failed to fetch")) 0 unreachable_proxy
           (blank_page talked_state) eq_refl).
Defined.

(** X21, witness: the probe against a handler whose key is "secret". *)
Lemma probe_against_proxy_witness :
  Proxy.handler pong_host no_network (post probe_body) (Some "secret")
  = (Return (Proxy.res_json 200 (Proxy.choices_body "pong")), []) /\
  delivers pong_host (Proxy.res_json 200 (Proxy.choices_body "pong"))
           (Responded 200 "PONG") /\
  Client.api_status
    (session (snd (checkApiStatus pong_host (Responded 200 "PONG") 0
                     (blank_page talked_state))))
  = "online".
Proof.
  assert (Hrun : Proxy.handler pong_host no_network (post probe_body)
                   (Some "secret")
                 = (Return (Proxy.res_json 200 (Proxy.choices_body "pong")), []))
    by reflexivity.
  assert (Hd : delivers pong_host
                 (Proxy.res_json 200 (Proxy.choices_body "pong"))
                 (Responded 200 "PONG")).
  { exists "PONG", (Proxy.choices_body "pong"). repeat split; reflexivity. }
  split; [exact Hrun|]. split; [exact Hd|].
  exact (proj2 (probe_against_proxy pong_host (Responded 200 "PONG") 0
                  no_network (Some "secret") _ _ (blank_page talked_state)
                  Hrun Hd)).
Defined.

(** X23, witness: a history of one user turn and one reply. *)
Lemma history_reaches_provider_as_user_turns_witness :
  Forall page_turn (Client.chat_messages talked_state) /\
  exists cm,
    Proxy.claudeMessages plain_host
      (map wire_message (Client.request_messages talked_state "and then?"))
    = Return cm /\
    Forall (fun m => Proxy.role m = "user") cm.
Proof.
  assert (Hh : Forall page_turn (Client.chat_messages talked_state)).
  { constructor; [split; [left; reflexivity|eexists; reflexivity]|].
    constructor; [split; [right; reflexivity|eexists; reflexivity]|].
    constructor. }
  split; [exact Hh|].
  exact (history_reaches_provider_as_user_turns plain_host talked_state
           "and then?" Hh).
Defined.

End StatusFacts.

(* ===================================================================== *)
(** ** Values that have no text form                                      *)
(* ===================================================================== *)

Module ConversionFacts.
Import JS Http Proxy ProxyNotions MoreNotions.

Section Facts.
Variable host : Host.
Variable upstream : UpstreamCall -> FetchResult.




(** X26: when [options.length] is an object with an own [toString]
    property, [Math.max] at line 124 throws while the payload is built:
    no call is made to the provider, and a POST that is not the probe is
    answered 500. *)
Theorem unconvertible_length_is_an_error req env items o fs :
  method req = "POST" ->
  get (body req) "messages" = Return (Arr items) ->
  get (body req) "options" = Return o -> truthy o = true ->
  get o "length" = Return (Obj fs) ->
  has_own "toString" fs = true ->
  exists resp, handler host upstream req env = (Return resp, []) /\
               (ping_probe items = false -> status resp = 500%Z).
Proof.
  intros Hm Hms Ho Ht Hl Hown.
  assert (Hp : forall cm, exists e, anthropicPayload host cm o = Throw e).
  { intros cm. unfold anthropicPayload, obind. rewrite Hl.
    destruct (get o "creativity"); [|eauto].
    destruct (get o "system"); [|eauto].
    unfold to_primitive at 1. simpl. rewrite Hown. simpl. eauto. }
  unfold handler, handler_eff, try_catch, try_block, bind, lift, ret.
  rewrite Hm, Hms, Ho, Ht. simpl.
  destruct env as [key|]; [|eexists; split; reflexivity].
  destruct (key =? ""); [eexists; split; reflexivity|].
  pose proof (ProxyFacts.not_ping items) as Hnp.
  destruct (if (List.length items =? 1)%nat
            then (c <- get (nth 0 items Undefined) "content" ;;
                  Return (is_string c "ping"))%outcome
            else Return false) as [[|]|e'].
  - eexists; split; [reflexivity|]. intros Hn. exfalso. exact (Hnp Hn eq_refl).
  - assert (Hf : exists e, fetchClaudeResponse host upstream items o key []
                           = (Throw e, [])).
    { unfold fetchClaudeResponse, bind, lift, throw.
      destruct (claudeMessages host items) as [[|m0 rest]|e]; [eauto| |eauto].
      destruct (negb (role m0 =? "user")); [eauto|].
      destruct (Hp (m0 :: rest)) as [e ->]. eauto. }
    destruct Hf as [e ->]. rewrite ProxyFacts.catch_block_on_error.
    eexists; split; [reflexivity|intros _; apply ProxyFacts.on_error_status].
  - rewrite ProxyFacts.catch_block_on_error.
    eexists; split; [reflexivity|intros _; apply ProxyFacts.on_error_status].
Qed.

End Facts.


(** X26, witness: options whose length is [{toString: 1}]. *)
Lemma unconvertible_length_is_an_error_witness :
  exists resp,
    handler plain_host no_network
      (post (proxy_body [chat_message "user" "hello"]
               (options_with "length" (Obj [("toString", Number (Num 1))]))))
      (Some "secret") = (Return resp, []) /\
    (ping_probe [chat_message "user" "hello"] = false -> status resp = 500%Z).
Proof.
  exact (unconvertible_length_is_an_error plain_host no_network
           (post (proxy_body [chat_message "user" "hello"]
                    (options_with "length" (Obj [("toString", Number (Num 1))]))))
           (Some "secret") [chat_message "user" "hello"]
           (options_with "length" (Obj [("toString", Number (Num 1))]))
           [("toString", Number (Num 1))]
           eq_refl eq_refl eq_refl eq_refl eq_refl eq_refl).
Defined.

End ConversionFacts.
